(** * MiniGit: object store, tree codec and commit builder

    A shallow embedding of [src/minigit/cli.py].  Python values are
    represented as follows.

    - [bytes] is a list of [byte].
    - [str] is a Rocq [string] holding the UTF-8 encoding of the text, so
      that [.encode()] is the conversion to a list of bytes and [.decode()]
      checks that the bytes are well-formed UTF-8.  Comparing two [str]
      values by code point (what [sorted] does) is the byte-wise
      lexicographic order of their UTF-8 encodings.  A [str] with lone
      surrogates, which Python makes of a file name with undecodable
      bytes, has no such encoding: statements about the names of a
      directory assume [names_ok].
    - An [int] is a [Z]; indices of the scanning loop of [ls_tree] are kept
      in [Z] because [bytes.find] answers [-1].
    - The directory [.git/objects] is a finite map from names to nodes.
    - A raised exception is the [Raise] case of [result]; a command yields
      an [outcome]. *)

From Stdlib Require Import ZArith Strings.Byte Strings.String Strings.Ascii List Lia.
From stdpp Require Import gmap strings list fin_maps sorting.

Local Open Scope Z_scope.

Definition bytes := list byte.
Definition str := string.

(** ** Exceptions and results *)

Inductive exn :=
  | FileNotFoundError
  | FileExistsError
  | IsADirectoryError
  | NotADirectoryError
  | ZlibError
  | ValueError
  | UnicodeDecodeError.

Inductive result (A : Type) :=
  | Ok (a : A)
  | Raise (e : exn).
Arguments Ok {A} a.
Arguments Raise {A} e.

Definition bind {A B} (r : result A) (k : A → result B) : result B :=
  match r with
  | Ok a => k a
  | Raise e => Raise e
  end.

Notation "'let*' x ':=' r 'in' k" := (bind r (fun x => k))
  (at level 10, x pattern, r at level 100, k at level 200, only parsing).

(** ** The Python operations the program uses *)

Module Py.

(** [b"..."] literals and [str.encode()]. *)
Definition encode (s : str) : bytes := list_byte_of_string s.
Definition B (s : string) : bytes := list_byte_of_string s.

Definition len {A} (l : list A) : Z := Z.of_nat (length l).

(** How a slice bound is normalised against a sequence of length [n]:
    a negative bound counts from the end, and the result is clamped to
    [0 .. n]. *)
Definition clamp (i n : Z) : Z :=
  if i <? 0 then Z.max 0 (i + n) else Z.min i n.

(** [b[lo:hi]] *)
Definition slice {A} (b : list A) (lo hi : Z) : list A :=
  let n := len b in
  let lo' := clamp lo n in
  let hi' := clamp hi n in
  take (Z.to_nat (hi' - lo')) (drop (Z.to_nat lo') b).

(** Position of the first [c] in [l], if any. *)
Fixpoint index_of (c : byte) (l : bytes) : option nat :=
  match l with
  | [] => None
  | x :: r => if Byte.eqb x c then Some O else S <$> index_of c r
  end.

(** [b.find(bytes([c]), start)]: lowest index at or after [start] holding
    [c], or [-1]. *)
Definition find (b : bytes) (c : byte) (start : Z) : Z :=
  let s := clamp start (len b) in
  match index_of c (drop (Z.to_nat s) b) with
  | Some k => s + Z.of_nat k
  | None => -1
  end.

(** [b.split(bytes([c]), 1)]: one part when [c] does not occur, two
    otherwise. *)
Definition split1 (b : bytes) (c : byte) : list bytes :=
  match index_of c b with
  | Some k => [take k b; drop (S k) b]
  | None => [b]
  end.

(** [x, y = parts] *)
Definition unpack2 {A} (parts : list A) : result (A * A) :=
  match parts with
  | [x; y] => Ok (x, y)
  | _ => Raise ValueError
  end.

(** [b.startswith(p)] *)
Fixpoint startswith (b p : bytes) : bool :=
  match p, b with
  | [], _ => true
  | c :: p', x :: b' => Byte.eqb x c && startswith b' p'
  | _ :: _, [] => false
  end.

(** [sep.join(parts)] on [str]. *)
Fixpoint join (sep : str) (parts : list str) : str :=
  match parts with
  | [] => ""
  | [x] => x
  | x :: rest => x +:+ sep +:+ join sep rest
  end.

(** [s[:2]] and [s[2:]] on a [str] of ASCII characters. *)
Definition str_take (n : nat) (s : str) : str := substring 0 n s.
Definition str_drop (n : nat) (s : str) : str :=
  substring n (String.length s - n) s.

(** Decimal digits, least significant first, of a natural number. *)
Definition digit (n : N) : ascii := ascii_of_N (48 + n).

Fixpoint digits (fuel : nat) (n : N) (acc : str) : str :=
  match fuel with
  | O => acc
  | S f =>
      let acc' := String (digit (n mod 10)) acc in
      if (n <? 10)%N then acc' else digits f (n / 10)%N acc'
  end.

(** [str(n)] for [n >= 0]; a number below [2^k] has at most [k] digits. *)
Definition str_of_N (n : N) : str := digits (S (N.to_nat (N.log2 n))) n "".

(** [str(z)] *)
Definition str_of_Z (z : Z) : str :=
  if z <? 0 then "-" +:+ str_of_N (Z.to_N (- z)) else str_of_N (Z.to_N z).

(** [str(len(b))] *)
Definition str_of_len {A} (l : list A) : str := str_of_N (N.of_nat (length l)).

(** *** Hexadecimal *)

Definition hexdigit (n : N) : ascii :=
  if (n <? 10)%N then ascii_of_N (48 + n) else ascii_of_N (87 + n).

Definition hex_byte (x : byte) : str :=
  let n := Byte.to_N x in
  String (hexdigit (n / 16)) (String (hexdigit (n mod 16)) "").

(** [b.hex()] *)
Fixpoint hex (b : bytes) : str :=
  match b with
  | [] => ""
  | x :: r => hex_byte x +:+ hex r
  end.

(** Value of one hexadecimal digit; [bytes.fromhex] takes both cases. *)
Definition hexval (c : ascii) : option N :=
  let n := N_of_ascii c in
  if ((48 <=? n) && (n <=? 57))%N then Some (n - 48)%N
  else if ((97 <=? n) && (n <=? 102))%N then Some (n - 87)%N
  else if ((65 <=? n) && (n <=? 70))%N then Some (n - 55)%N
  else None.

(** ASCII whitespace, which [bytes.fromhex] skips between bytes. *)
Definition is_space (c : ascii) : bool :=
  let n := N_of_ascii c in
  ((n =? 32) || ((9 <=? n) && (n <=? 13)))%N.

(** [bytes.fromhex(s)] *)
Fixpoint fromhex (s : str) : result bytes :=
  match s with
  | EmptyString => Ok []
  | String c r =>
      if is_space c then fromhex r
      else
        match r with
        | EmptyString => Raise ValueError
        | String d r' =>
            match hexval c, hexval d with
            | Some h, Some l =>
                match Byte.of_N (16 * h + l) with
                | Some x => let* rest := fromhex r' in Ok (x :: rest)
                | None => Raise ValueError
                end
            | _, _ => Raise ValueError
            end
        end
  end.

(** *** UTF-8 *)

Definition in_range (lo hi : N) (x : byte) : bool :=
  ((lo <=? Byte.to_N x) && (Byte.to_N x <=? hi))%N.

Definition cont (x : byte) : bool := in_range 128 191 x.

(** Well-formed UTF-8 as the strict decoder accepts it: shortest forms
    only, no surrogates, nothing above U+10FFFF. *)
Fixpoint utf8_valid (b : bytes) : bool :=
  match b with
  | [] => true
  | x :: r =>
      if in_range 0 127 x then utf8_valid r
      else if in_range 194 223 x then
        match r with
        | c1 :: r' => cont c1 && utf8_valid r'
        | _ => false
        end
      else if in_range 224 239 x then
        match r with
        | c1 :: c2 :: r' =>
            (if in_range 224 224 x then in_range 160 191 c1
             else if in_range 237 237 x then in_range 128 159 c1
             else cont c1)
            && cont c2 && utf8_valid r'
        | _ => false
        end
      else if in_range 240 244 x then
        match r with
        | c1 :: c2 :: c3 :: r' =>
            (if in_range 240 240 x then in_range 144 191 c1
             else if in_range 244 244 x then in_range 128 143 c1
             else cont c1)
            && cont c2 && cont c3 && utf8_valid r'
        | _ => false
        end
      else false
  end.

(** [b.decode()] *)
Definition decode (b : bytes) : result str :=
  if utf8_valid b then Ok (string_of_list_byte b) else Raise UnicodeDecodeError.

End Py.

(** ** SHA-1

    [hashlib.sha1(data).hexdigest()], written out after FIPS 180-4 on
    32-bit words held in [Z]. *)

Module SHA1.

Definition w32 (x : Z) : Z := x mod 2 ^ 32.

Definition rotl (n x : Z) : Z :=
  Z.lor (w32 (Z.shiftl x n)) (Z.shiftr x (32 - n)).

Definition byte_val (x : byte) : Z := Z.of_N (Byte.to_N x).

(** Big-endian bytes of [x], [n] of them. *)
Fixpoint be_bytes (n : nat) (x : Z) : list Z :=
  match n with
  | O => []
  | S m => Z.shiftr x (8 * Z.of_nat m) mod 256 :: be_bytes m x
  end.

(** The message, a one bit, zeros up to 56 modulo 64, the bit length. *)
Definition pad (data : bytes) : list Z :=
  let l := Z.of_nat (length data) in
  (byte_val <$> data) ++ [128]
    ++ replicate (Z.to_nat ((55 - l) mod 64)) 0
    ++ be_bytes 8 (8 * l).

Fixpoint words (b : list Z) : list Z :=
  match b with
  | b0 :: b1 :: b2 :: b3 :: r =>
      (Z.shiftl b0 24 + Z.shiftl b1 16 + Z.shiftl b2 8 + b3) :: words r
  | _ => []
  end.

(** The message schedule, latest word first. *)
Fixpoint schedule (n : nat) (w : list Z) : list Z :=
  match n with
  | O => w
  | S m =>
      let x := Z.lxor (Z.lxor (nth 2 w 0) (nth 7 w 0))
                      (Z.lxor (nth 13 w 0) (nth 15 w 0)) in
      schedule m (rotl 1 x :: w)
  end.

Record state := State { ha : Z; hb : Z; hc : Z; hd : Z; he : Z }.

Definition init : state :=
  State 0x67452301 0xEFCDAB89 0x98BADCFE 0x10325476 0xC3D2E1F0.

Definition f (t : nat) (b c d : Z) : Z :=
  if (t <? 20)%nat then Z.lor (Z.land b c) (Z.land (Z.lxor b 0xFFFFFFFF) d)
  else if (t <? 40)%nat then Z.lxor (Z.lxor b c) d
  else if (t <? 60)%nat then
    Z.lor (Z.lor (Z.land b c) (Z.land b d)) (Z.land c d)
  else Z.lxor (Z.lxor b c) d.

Definition k (t : nat) : Z :=
  if (t <? 20)%nat then 0x5A827999
  else if (t <? 40)%nat then 0x6ED9EBA1
  else if (t <? 60)%nat then 0x8F1BBCDC
  else 0xCA62C1D6.

Definition round (t : nat) (wt : Z) (s : state) : state :=
  let tmp := w32 (rotl 5 (ha s) + f t (hb s) (hc s) (hd s) + he s + k t + wt) in
  State tmp (ha s) (rotl 30 (hb s)) (hc s) (hd s).

Fixpoint rounds (t : nat) (w : list Z) (s : state) : state :=
  match w with
  | [] => s
  | wt :: r => rounds (S t) r (round t wt s)
  end.

Definition compress_block (h : state) (block : list Z) : state :=
  let s := rounds 0 (rev (schedule 64 (rev block))) h in
  State (w32 (ha h + ha s)) (w32 (hb h + hb s)) (w32 (hc h + hc s))
        (w32 (hd h + hd s)) (w32 (he h + he s)).

Fixpoint blocks (n : nat) (h : state) (w : list Z) : state :=
  match n with
  | O => h
  | S m => blocks m (compress_block h (take 16 w)) (drop 16 w)
  end.

Definition digest (data : bytes) : state :=
  let w := words (pad data) in
  blocks (length w / 16) init w.

Definition hex_nibble (x : Z) (i : Z) : ascii :=
  Py.hexdigit (Z.to_N (Z.shiftr x (4 * i) mod 16)).

Definition hex_word (x : Z) (rest : str) : str :=
  String (hex_nibble x 7) (String (hex_nibble x 6)
  (String (hex_nibble x 5) (String (hex_nibble x 4)
  (String (hex_nibble x 3) (String (hex_nibble x 2)
  (String (hex_nibble x 1) (String (hex_nibble x 0) rest))))))).

Definition hexdigest (data : bytes) : str :=
  let s := digest data in
  hex_word (ha s) (hex_word (hb s) (hex_word (hc s)
    (hex_word (hd s) (hex_word (he s) "")))).

End SHA1.

(** ** zlib

    [zlib.compress] and [zlib.decompress] are taken through their
    interface: decompressing a compressed stream gives the input back, and
    decompressing anything else may raise [zlib.error]. *)

Class Zlib := {
  compress : bytes → bytes;
  decompress : bytes → result bytes;
  decompress_compress : ∀ b, decompress (compress b) = Ok b
}.

(** ** The object directory *)

(** What [.git/objects] holds under one name: a file (an object in the
    flat layout) or a directory of files (a fan-out bucket). *)
Inductive node :=
  | File (data : bytes)
  | Dir (files : gmap string bytes).

Abbreviation objdir := (gmap string node).

(** A path below [OBJ_DIR]: [OBJ_DIR / name] or [OBJ_DIR / dir / name].
    The two components of a fan-out path are [sha1[:2]] and [sha1[2:]];
    for a digest both are non-empty and free of path separators, which is
    the case the model of paths covers. *)
Inductive path :=
  | Top (name : str)
  | Nested (dir name : str).

Definition path_exists (fs : objdir) (p : path) : bool :=
  match p with
  | Top name => bool_decide (is_Some (fs !! name))
  | Nested dir name =>
      match fs !! dir with
      | Some (Dir files) => bool_decide (is_Some (files !! name))
      | _ => false
      end
  end.

Definition read_bytes (fs : objdir) (p : path) : result bytes :=
  match p with
  | Top name =>
      match fs !! name with
      | Some (File data) => Ok data
      | Some (Dir _) => Raise IsADirectoryError
      | None => Raise FileNotFoundError
      end
  | Nested dir name =>
      match fs !! dir with
      | Some (Dir files) =>
          match files !! name with
          | Some data => Ok data
          | None => Raise FileNotFoundError
          end
      | _ => Raise FileNotFoundError
      end
  end.

(** [(OBJ_DIR / name).mkdir(parents=True, exist_ok=True)] *)
Definition mkdir (fs : objdir) (name : str) : result objdir :=
  match fs !! name with
  | None => Ok (<[name := Dir ∅]> fs)
  | Some (Dir _) => Ok fs
  | Some (File _) => Raise FileExistsError
  end.

(** [(OBJ_DIR / dir / name).write_bytes(data)] *)
Definition write_bytes (fs : objdir) (dir name : str) (data : bytes)
  : result objdir :=
  match fs !! dir with
  | Some (Dir files) => Ok (<[dir := Dir (<[name := data]> files)]> fs)
  | _ => Raise FileNotFoundError
  end.

(** ** Repository helpers *)

Section Store.
Context `{Zlib}.

Definition _object_path (fs : objdir) (sha1 : str) : option path :=
  let fanout := Nested (Py.str_take 2 sha1) (Py.str_drop 2 sha1) in
  if path_exists fs fanout then Some fanout
  else
    let flat := Top sha1 in
    if path_exists fs flat then Some flat else None.

Definition _read_object (fs : objdir) (sha1 : str) : result bytes :=
  match _object_path fs sha1 with
  | None => Raise FileNotFoundError
  | Some p => let* data := read_bytes fs p in decompress data
  end.

Definition _write_object (store : bytes) (fs : objdir) : result (str * objdir) :=
  let sha1 := SHA1.hexdigest store in
  let dest_dir := Py.str_take 2 sha1 in
  let* fs := mkdir fs dest_dir in
  let dest_name := Py.str_drop 2 sha1 in
  if negb (path_exists fs (Nested dest_dir dest_name))
  then let* fs := write_bytes fs dest_dir dest_name (compress store) in Ok (sha1, fs)
  else Ok (sha1, fs).

End Store.

(** ** Commands *)

(** What running a command gives: it returns after writing [out] to
    standard output (exit status 0); or it writes [err] to standard error
    and calls [sys.exit(code)], having written nothing to standard output;
    or an exception goes uncaught (traceback, exit status 1, nothing on
    standard output). *)
Inductive outcome :=
  | Returned (out : bytes)
  | Exited (code : Z) (err : bytes)
  | Uncaught (e : exn).

Definition status (o : outcome) : Z :=
  match o with
  | Returned _ => 0
  | Exited code _ => code
  | Uncaught _ => 1
  end.

Definition stdout (o : outcome) : bytes :=
  match o with
  | Returned out => out
  | _ => []
  end.

Definition stderr (o : outcome) : option bytes :=
  match o with
  | Returned _ => Some []
  | Exited _ err => Some err
  | Uncaught _ => None
  end.

Definition NUL : byte := x00.
Definition NL : str := String (ascii_of_N 10) "".
Definition TAB : str := String (ascii_of_N 9) "".

(** [print(s)] *)
Definition print (s : str) : bytes := Py.encode (s +:+ NL).

(** A working-tree node as [write-tree] sees it: a file with its
    [st_mode] and content, or a directory with the children [iterdir]
    lists, in the order it lists them. *)
#[local] Unset Elimination Schemes.
Inductive wnode :=
  | WFile (st_mode : Z) (data : bytes)
  | WDir (children : list (str * wnode)).
#[local] Set Elimination Schemes.

(** An element of [entries]: [(name, mode, sha)]. *)
Definition entry : Type := str * str * str.

Section Commands.
Context `{Zlib}.

(** *** cat-file *)

Definition cat_file_p (fs : objdir) (sha1 : str) : outcome :=
  match _read_object fs sha1 with
  | Raise FileNotFoundError => Exited 1 (print "fatal: object not found")
  | Raise e => Uncaught e
  | Ok raw =>
      match Py.unpack2 (Py.split1 raw NUL) with
      | Raise e => Uncaught e
      | Ok (header, body) =>
          if negb (Py.startswith header (Py.B "blob "))
          then Exited 1 (print "fatal: not a blob object")
          else Returned body
      end
  end.

(** *** hash-object; [data] is what [Path(file_path).read_bytes()] gave. *)

Definition hash_object_w (data : bytes) (fs : objdir)
  : result (bytes * objdir) :=
  let store := Py.B "blob " ++ Py.encode (Py.str_of_len data) ++ [NUL] ++ data in
  let* (sha1, fs) := _write_object store fs in
  Ok (print sha1, fs).

(** *** write-tree *)

Definition _file_mode (p : wnode) : str :=
  match p with
  | WDir _ => "40000"
  | WFile st_mode _ =>
      (* 0o111 *)
      if negb (Z.land st_mode 73 =? 0) then "100755" else "100644"
  end.

Definition _write_blob (data : bytes) (fs : objdir) : result (str * objdir) :=
  let store := Py.B "blob " ++ Py.encode (Py.str_of_len data) ++ [NUL] ++ data in
  _write_object store fs.

(** [sorted(..., key=lambda p: p.name)] *)
Definition by_name {A} (x y : str * A) : Prop := (x.1 ≤ y.1)%string.

Definition sorted_by_name {A} (l : list (str * A)) : list (str * A) :=
  merge_sort by_name l.

(** One element of the generator joined into the tree body. *)
Definition encode_entry (e : entry) : result bytes :=
  let '(name, mode, sha) := e in
  let* raw := Py.fromhex sha in
  Ok (Py.encode mode ++ Py.B " " ++ Py.encode name ++ [NUL] ++ raw).

(** [b"".join(... for name, mode, sha in entries)] *)
Fixpoint encode_tree (entries : list entry) : result bytes :=
  match entries with
  | [] => Ok []
  | e :: rest =>
      let* x := encode_entry e in
      let* r := encode_tree rest in
      Ok (x ++ r)
  end.

(** A child prepared for the loop: its name, its mode, and the call that
    writes it ([_write_tree_for_dir(child)] or [_write_blob(child)]). *)
Definition child : Type := str * (str * (objdir → result (str * objdir))).

(** The [for child in sorted(...)] loop, building [entries]. *)
Fixpoint collect (cs : list child) (entries : list entry) (fs : objdir)
  : result (list entry * objdir) :=
  match cs with
  | [] => Ok (entries, fs)
  | (name, (mode, write)) :: rest =>
      if bool_decide (name = ".git") then collect rest entries fs
      else
        let* (sha, fs) := write fs in
        collect rest (entries ++ [(name, mode, sha)]) fs
  end.

Definition write_tree_object (entries : list entry) (fs : objdir)
  : result (str * objdir) :=
  let* body := encode_tree entries in
  let store := Py.B "tree " ++ Py.encode (Py.str_of_len body) ++ [NUL] ++ body in
  _write_object store fs.

(** The children as [iterdir] lists them, each with the call that the
    loop makes for it; [write_dir] is [_write_tree_for_dir] itself.
    Setting the calls up before sorting is what makes the recursion
    structural; [collect] runs them in sorted order, threading the object
    directory. *)
Definition prepare (write_dir : wnode → objdir → result (str * objdir))
    (children : list (str * wnode)) : list child :=
  map (λ '(name, c),
         (name, (_file_mode c,
                 match c with
                 | WDir _ => write_dir c
                 | WFile _ data => _write_blob data
                 end))) children.

Fixpoint _write_tree_for_dir (dir_path : wnode) (fs : objdir)
  : result (str * objdir) :=
  match dir_path with
  | WFile _ _ => Raise NotADirectoryError
  | WDir children =>
      let* (entries, fs) :=
        collect (sorted_by_name (prepare _write_tree_for_dir children)) [] fs in
      write_tree_object entries fs
  end.

(** The value of [entries] when the loop of [_write_tree_for_dir] is
    over, with the object directory at that point. *)
Definition dir_entries (children : list (str * wnode)) (fs : objdir)
  : result (list entry * objdir) :=
  collect (sorted_by_name (prepare _write_tree_for_dir children)) [] fs.

Definition write_tree (root : wnode) (fs : objdir) : result (bytes * objdir) :=
  let* (root_sha, fs) := _write_tree_for_dir root fs in
  Ok (print root_sha, fs).

(** *** ls-tree *)

(** One turn of the [while i < n] loop started at index [i]: the entry
    read, as [(name, mode, sha_hex)], and the index afterwards. *)
Definition scan_entry (body : bytes) (i : Z) : result (entry * Z) :=
  let j := Py.find body " " i in
  let* mode := Py.decode (Py.slice body i j) in
  let i := j + 1 in
  let k := Py.find body NUL i in
  let* name := Py.decode (Py.slice body i k) in
  let i := k + 1 in
  let sha_hex := Py.hex (Py.slice body i (i + 20)) in
  let i := i + 20 in
  Ok ((name, mode, sha_hex), i).

(** The loop; it has no bound of its own, so the model counts turns and
    answers [None] when [fuel] turns did not reach [i >= n]. *)
Fixpoint scan (fuel : nat) (body : bytes) (i : Z) (acc : list entry)
  : option (result (list entry)) :=
  if i <? Py.len body then
    match fuel with
    | O => None
    | S fuel =>
        match scan_entry body i with
        | Raise e => Some (Raise e)
        | Ok (e, i) => scan fuel body i (acc ++ [e])
        end
    end
  else Some (Ok acc).

(** What the loop appends to [lines] for one entry. *)
Definition line (name_only : bool) (e : entry) : str :=
  let '(name, mode, sha_hex) := e in
  if name_only then name
  else
    let obj_type := if String.prefix "4" mode then "tree" else "blob" in
    mode +:+ " " +:+ obj_type +:+ " " +:+ sha_hex +:+ TAB +:+ name.

Definition ls_tree (fuel : nat) (fs : objdir) (tree_sha : str) (name_only : bool)
  : option outcome :=
  match _read_object fs tree_sha with
  | Raise FileNotFoundError => Some (Exited 1 (print "fatal: object not found"))
  | Raise e => Some (Uncaught e)
  | Ok raw =>
      match Py.unpack2 (Py.split1 raw NUL) with
      | Raise e => Some (Uncaught e)
      | Ok (header, body) =>
          if negb (Py.startswith header (Py.B "tree "))
          then Some (Exited 1 (print "fatal: not a tree object"))
          else
            match scan fuel body 0 [] with
            | None => None
            | Some (Raise e) => Some (Uncaught e)
            | Some (Ok entries) =>
                Some (Returned (print (Py.join NL (line name_only <$> entries))))
            end
      end
  end.

(** *** commit-tree; [timestamp] is what [int(time.time())] gave. *)

Definition _AUTHOR : str := "Mann <mann@example.com>".

(** Python truth of [parent_sha: str | None]. *)
Definition truthy (parent_sha : option str) : bool :=
  match parent_sha with
  | None => false
  | Some s => negb (bool_decide (s = ""))
  end.

Definition commit_lines (tree_sha : str) (parent_sha : option str)
    (timestamp : Z) (message : str) : list str :=
  let timezone := "+0000" in
  let lines := ["tree " +:+ tree_sha] in
  let lines :=
    if truthy parent_sha
    then lines ++ ["parent " +:+ default "" parent_sha]
    else lines in
  let lines := lines ++ ["author " +:+ _AUTHOR +:+ " " +:+ Py.str_of_Z timestamp
                           +:+ " " +:+ timezone] in
  let lines := lines ++ ["committer " +:+ _AUTHOR +:+ " " +:+ Py.str_of_Z timestamp
                           +:+ " " +:+ timezone] in
  let lines := lines ++ [""] in
  lines ++ [message].

Definition commit_content (tree_sha : str) (parent_sha : option str)
    (timestamp : Z) (message : str) : str :=
  Py.join NL (commit_lines tree_sha parent_sha timestamp message) +:+ NL.

Definition commit_tree (tree_sha : str) (parent_sha : option str)
    (timestamp : Z) (message : str) (fs : objdir) : result (bytes * objdir) :=
  let content := commit_content tree_sha parent_sha timestamp message in
  let store := Py.B "commit " ++ Py.encode (Py.str_of_len (Py.encode content))
                 ++ [NUL] ++ Py.encode content in
  let* (sha1, fs) := _write_object store fs in
  Ok (print sha1, fs).
End Commands.

(** A small codec that satisfies the interface, used to run the model on
    concrete object directories: one marker byte in front of the data. *)
Module Framed.
Definition pack (b : bytes) : bytes := x78 :: b.
Definition unpack (b : bytes) : result bytes :=
  match b with
  | x78 :: r => Ok r
  | _ => Raise ZlibError
  end.
Definition zlib : Zlib :=
  {| compress := pack; decompress := unpack;
     decompress_compress := λ b, eq_refl |}.
End Framed.

(** ** Command line *)

(** What [main] ends up calling, with the arguments it passes; [Usage] is
    a call of [usage()], which prints the help text on standard error and
    exits with status 1. *)
Inductive action :=
  | Usage
  | Init
  | CatFile (sha1 : str)
  | HashObject (file_path : str)
  | LsTree (tree_sha : str) (name_only : bool)
  | WriteTree
  | CommitTree (tree_sha : str) (parent_sha : option str) (message : str)
  | Clone (url target_dir : str).

(** The [while i < len(sys.argv)] loop of the [commit-tree] branch; [rest]
    is [sys.argv[i:]], and [message is None] as long as the loop runs. *)
Fixpoint parse_commit_tree (tree_sha : str) (rest : list str)
    (parent_sha : option str) : action :=
  match rest with
  | [] => Usage
  | a :: rest =>
      if String.eqb a "-p" then
        match parent_sha, rest with
        | None, value :: rest => parse_commit_tree tree_sha rest (Some value)
        | _, _ => Usage
        end
      else if String.eqb a "-m" then
        CommitTree tree_sha parent_sha (Py.join " " rest)
      else Usage
  end.

Definition main (argv : list str) : action :=
  let n := length argv in
  let arg (i : nat) := nth i argv "" in
  if (n <? 2)%nat then Usage
  else
    let cmd := arg 1%nat in
    if String.eqb cmd "init" then Init
    else if String.eqb cmd "cat-file" && (4 <=? n)%nat && String.eqb (arg 2%nat) "-p"
    then CatFile (arg 3%nat)
    else if String.eqb cmd "hash-object" && (4 <=? n)%nat && String.eqb (arg 2%nat) "-w"
    then HashObject (arg 3%nat)
    else if String.eqb cmd "ls-tree" then
      if (4 <=? n)%nat && String.eqb (arg 2%nat) "--name-only"
      then LsTree (arg 3%nat) true
      else if (3 <=? n)%nat then LsTree (arg 2%nat) false
      else Usage
    else if String.eqb cmd "write-tree" then WriteTree
    else if String.eqb cmd "commit-tree" then
      if (n <? 4)%nat then Usage
      else parse_commit_tree (arg 2%nat) (drop 3 argv) None
    else if String.eqb cmd "clone" && (n =? 4)%nat
    then Clone (arg 2%nat) (arg 3%nat)
    else Usage.

(** ** Notions used to state the properties *)

(** A digest as [hexdigest] prints it: 40 lowercase hexadecimal digits. *)
Definition is_lower_hex (c : ascii) : bool :=
  let n := N_of_ascii c in
  ((48 <=? n) && (n <=? 57) || (97 <=? n) && (n <=? 102))%N.

Definition is_digest (s : str) : bool :=
  (String.length s =? 40)%nat && forallb is_lower_hex (list_ascii_of_string s).

(** The header-prefixed representation of an object, as the
    specification writes it: ["<kind> <len(body)>\0" + body]. *)
Definition object_repr (kind : str) (body : bytes) : bytes :=
  Py.encode (kind +:+ " " +:+ Py.str_of_len body) ++ [NUL] ++ body.

(** The header lines of a commit: the lines before the blank one. *)
Fixpoint header_of (lines : list str) : list str :=
  match lines with
  | [] => []
  | EmptyString :: _ => []
  | l :: rest => l :: header_of rest
  end.

Definition is_parent_line (l : str) : Prop := String.prefix "parent " l = true.

Definition author_line (timestamp : Z) : str :=
  "author " +:+ _AUTHOR +:+ " " +:+ Py.str_of_Z timestamp +:+ " +0000".
Definition committer_line (timestamp : Z) : str :=
  "committer " +:+ _AUTHOR +:+ " " +:+ Py.str_of_Z timestamp +:+ " +0000".

(** A tree entry as [_write_tree_for_dir] builds it: the name of a
    directory child (text without a null byte), one of the three modes of
    [_file_mode], and a digest. *)
Definition name_ok (name : str) : Prop :=
  Py.index_of NUL (Py.encode name) = None
  ∧ Py.utf8_valid (Py.encode name) = true.

Definition mode_ok (mode : str) : Prop :=
  mode = "40000" ∨ mode = "100755" ∨ mode = "100644".

Definition entry_ok (e : entry) : Prop :=
  name_ok e.1.1 ∧ mode_ok e.1.2 ∧ is_digest e.2 = true.

(** Every name in a directory tree, at any depth, is text without a null
    byte.  A file name with undecodable bytes is outside: Python holds it
    as a [str] with lone surrogates, which [sorted] orders by code point
    and on which [name.encode()] raises. *)
Fixpoint names_ok (n : wnode) : Prop :=
  match n with
  | WFile _ _ => True
  | WDir children =>
      fold_right (λ '(name, c) rest, name_ok name ∧ names_ok c ∧ rest)
        True children
  end.

(** The bytes that stand for one entry in a tree body: the mode as text,
    a space, the name, a null byte and the 20 raw bytes of the digest. *)
Definition is_chunk (e : entry) (chunk : bytes) : Prop :=
  ∃ raw, Py.hex raw = e.2 ∧ length raw = 20%nat
         ∧ chunk = Py.encode e.1.2 ++ Py.B " " ++ Py.encode e.1.1 ++ [NUL] ++ raw.

(** The fan-out location of [store] is free in [fs], or holds a stream
    that decompresses to [store], and no file stands where its bucket
    directory belongs. *)
Definition slot_agrees `{Zlib} (fs : objdir) (store : bytes) : Prop :=
  let sha1 := SHA1.hexdigest store in
  match fs !! Py.str_take 2 sha1 with
  | None => True
  | Some (File _) => False
  | Some (Dir files) =>
      match files !! Py.str_drop 2 sha1 with
      | None => True
      | Some data => decompress data = Ok store
      end
  end.

(** No file stands in [.git/objects] under a two-character name, where a
    fan-out bucket may have to be created. *)
Definition buckets_ok (fs : objdir) : Prop :=
  ∀ name data, fs !! name = Some (File data) → String.length name ≠ 2%nat.

(** The names of an entry list, in order. *)
Definition names (entries : list entry) : list str := (λ e, e.1.1) <$> entries.

(** A call of the loop that, whenever buckets can be created, returns a
    digest and leaves the object directory in that state. *)
Definition returns_digest (write : objdir → result (str * objdir)) : Prop :=
  ∀ fs, buckets_ok fs →
    ∃ sha fs', write fs = Ok (sha, fs') ∧ is_digest sha = true ∧ buckets_ok fs'.

(** A call of the loop whose digest does not depend on the object
    directory it is run in. *)
Definition state_free (write : objdir → result (str * objdir)) : Prop :=
  ∀ fs1 fs2 s1 s2 fs1' fs2',
    write fs1 = Ok (s1, fs1') → write fs2 = Ok (s2, fs2') → s1 = s2.

(** Every path that exists in [fs1] exists in [fs2]. *)
Definition extends (fs1 fs2 : objdir) : Prop :=
  ∀ p, path_exists fs1 p = true → path_exists fs2 p = true.

(** A call of the loop that only adds paths, and that writes nothing when
    run again where all it wrote exists. *)
Definition settles (write : objdir → result (str * objdir)) : Prop :=
  ∀ fs s fs1, write fs = Ok (s, fs1) →
    extends fs fs1
    ∧ ∀ fs2, extends fs1 fs2 → write fs2 = Ok (s, fs2).

(** What the loop of [_write_tree_for_dir] calls for a child. *)
Definition writer `{Zlib} (c : wnode) : objdir → result (str * objdir) :=
  match c with
  | WDir _ => _write_tree_for_dir c
  | WFile _ data => _write_blob data
  end.

(** ** Sample values *)

Module Sample.
(** The blob of the five bytes [hello]. *)
Definition hello : bytes := Py.B "hello".
Definition hello_store : bytes := Py.B "blob 5" ++ [NUL] ++ hello.
Definition hello_sha : str := "b6fc4c620b67d95f953a5c1c1230aaab5db5a1b0".
Definition hello_dir : str := "b6".
Definition hello_name : str := "fc4c620b67d95f953a5c1c1230aaab5db5a1b0".

(** An object directory that holds the blob in the flat layout only. *)
Definition flat_only : objdir :=
  {[hello_sha := File (Framed.pack hello_store)]}.

(** A tree body without any space: one null byte, then 23 letters. *)
Definition looping_body : bytes := NUL :: replicate 23 "x"%byte.

(** A body with no delimiter at all, shorter than a digest. *)
Definition short_body : bytes := Py.B "abc".

(** One entry for a regular file [a.txt] holding [hello]. *)
Definition one_entry : list entry := [("a.txt", "100644", hello_sha)].

(** A working tree: a file, the repository directory, a subdirectory. *)
Definition tree : list (str * wnode) :=
  [("b.txt", WFile 0x81a4 (Py.B "hi"));
   (".git", WDir [("HEAD", WFile 0x81a4 [])]);
   ("a", WDir [("x", WFile 0x81ed [])])].

(** An object directory that holds it in both layouts. *)
Definition both_layouts : objdir :=
  <[hello_dir := Dir {[hello_name := Framed.pack hello_store]}]> flat_only.
End Sample.

(** More sample values. *)
Module More.
(** A stored blob whose header declares 999 bytes for a body of two. *)
Definition wrong_length : bytes := Py.B "blob 999" ++ [NUL] ++ Py.B "hi".
Definition wrong_length_dir : objdir :=
  {["ab" := Dir {["cdef" := Framed.pack wrong_length]}]}.

(** [Sample.tree] without its [.git] child, and with two children listed
    in the other order. *)
Definition plain_tree : list (str * wnode) :=
  [("b.txt", WFile 0x81a4 (Py.B "hi")); ("a", WDir [("x", WFile 0x81ed [])])].
Definition git_child : wnode := WDir [("HEAD", WFile 0x81a4 [])].
Definition swapped_tree : list (str * wnode) :=
  [("a", WDir [("x", WFile 0x81ed [])]); ("b.txt", WFile 0x81a4 (Py.B "hi"))].

(** A tree body with one entry. *)
Definition one_entry_body : bytes :=
  Py.B "100644 a" ++ [NUL] ++ replicate 20 "x"%byte.

(** A command line with a parent and a message of several words. *)
Definition commit_argv : list str :=
  ["git.py"; "commit-tree"; Sample.hello_sha; "-p"; Sample.hello_sha;
   "-m"; "first"; "-p"; "commit"].
End More.

(** * Properties *)

(** ** The model on known values *)

Example sha1_empty :
  SHA1.hexdigest [] = "da39a3ee5e6b4b0d3255bfef95601890afd80709".
Proof. by vm_compute. Qed.

Example sha1_abc :
  SHA1.hexdigest (Py.B "abc") = "a9993e364706816aba3e25717850c26c9cd0d89d".
Proof. by vm_compute. Qed.

Example sha1_two_blocks :
  SHA1.hexdigest
    (Py.B "abcdbcdecdefdefgefghfghighijhijkijkljklmklmnlmnomnopnopq") =
  "84983e441c3bd26ebaae4aa1f95129e5e54670f1".
Proof. by vm_compute. Qed.

Example str_of_numbers :
  Py.str_of_N 0 = "0" ∧ Py.str_of_N 9 = "9" ∧ Py.str_of_N 10 = "10"
  ∧ Py.str_of_N 255 = "255" ∧ Py.str_of_N 1000 = "1000"
  ∧ Py.str_of_Z 1700000000 = "1700000000" ∧ Py.str_of_Z (-42) = "-42".
Proof. by vm_compute. Qed.

Example slices_and_finds :
  Py.slice (Py.B "abc") 0 (-1) = Py.B "ab"
  ∧ Py.slice (Py.B "abc") 25 (-1) = []
  ∧ Py.slice (Py.B "abc") 1 21 = Py.B "bc"
  ∧ Py.find (Py.B "a c c") " " 2 = 3
  ∧ Py.find (Py.B "a c c") " " 9 = -1
  ∧ Py.split1 (Py.B "a c c") " " = [Py.B "a"; Py.B "c c"]
  ∧ Py.fromhex "68656C 6c6f" = Ok (Py.B "hello")
  ∧ Py.hex (Py.B "hello") = "68656c6c6f".
Proof. by vm_compute. Qed.

(** ** Strings *)

#[local] Arguments String.append !_ _ / : simpl nomatch.


Lemma append_nil_r (a : string) : a +:+ "" = a.
Proof. induction a as [|x a IH]; simpl; [done | by f_equal]. Qed.

(** ** Commit builder *)

Lemma commit_lines_none tree_sha timestamp message :
  commit_lines tree_sha None timestamp message =
  ["tree " +:+ tree_sha; author_line timestamp; committer_line timestamp;
   ""; message].
Proof. reflexivity. Qed.

Lemma commit_lines_some tree_sha p timestamp message :
  p ≠ "" →
  commit_lines tree_sha (Some p) timestamp message =
  ["tree " +:+ tree_sha; "parent " +:+ p; author_line timestamp;
   committer_line timestamp; ""; message].
Proof.
  intros Hp. unfold commit_lines, truthy.
  rewrite bool_decide_eq_false_2 by done. reflexivity.
Qed.


Lemma header_without_parent tree_sha timestamp message :
  ¬ Exists is_parent_line
      (header_of (commit_lines tree_sha None timestamp message)).
Proof.
  rewrite commit_lines_none. simpl.
  rewrite !Exists_cons, Exists_nil. unfold is_parent_line. simpl.
  intros [?|[?|[?|[]]]]; discriminate.
Qed.


(** C10. An empty parent string gives the commit body that no parent
    gives: the parent line is written for a non-empty parent string only. *)
Theorem commit_empty_parent `{Zlib} tree_sha timestamp message fs :
  commit_lines tree_sha (Some "") timestamp message =
    ["tree " +:+ tree_sha; author_line timestamp; committer_line timestamp;
     ""; message]
  ∧ commit_content tree_sha (Some "") timestamp message =
      commit_content tree_sha None timestamp message
  ∧ commit_tree tree_sha (Some "") timestamp message fs =
      commit_tree tree_sha None timestamp message fs
  ∧ ¬ Exists is_parent_line
        (header_of (commit_lines tree_sha (Some "") timestamp message))
  ∧ ∀ p, commit_lines tree_sha (Some p) timestamp message =
           if bool_decide (p = "")
           then commit_lines tree_sha None timestamp message
           else ["tree " +:+ tree_sha; "parent " +:+ p; author_line timestamp;
                 committer_line timestamp; ""; message].
Proof.
  split; [reflexivity|]. split; [reflexivity|]. split; [reflexivity|].
  split; [apply header_without_parent|].
  intros p. case_bool_decide as Hp.
  - by subst p.
  - by apply commit_lines_some.
Qed.

(** ** Bytes and text *)

Lemma encode_app (a b : str) : Py.encode (a +:+ b) = Py.encode a ++ Py.encode b.
Proof.
  unfold Py.encode, list_byte_of_string.
  induction a as [|x a IH]; simpl; [done | by f_equal].
Qed.

Lemma hexdigit_lower (n : N) : (n < 16)%N → is_lower_hex (Py.hexdigit n) = true.
Proof.
  intros Hn. destruct n as [|p]; [reflexivity|].
  do 4 (destruct p as [p|p|]; try reflexivity); lia.
Qed.

Lemma hex_nibble_lower x i : is_lower_hex (SHA1.hex_nibble x i) = true.
Proof.
  apply hexdigit_lower.
  pose proof (Z.mod_pos_bound (Z.shiftr x (4 * i)) 16). lia.
Qed.

Lemma hex_words_digest (a b c d e : Z) :
  is_digest (SHA1.hex_word a (SHA1.hex_word b (SHA1.hex_word c
               (SHA1.hex_word d (SHA1.hex_word e ""))))) = true.
Proof.
  unfold is_digest, SHA1.hex_word.
  cbn [String.length list_ascii_of_string forallb Nat.eqb andb].
  by rewrite !hex_nibble_lower.
Qed.

Lemma hexdigest_is_digest (data : bytes) : is_digest (SHA1.hexdigest data) = true.
Proof. unfold SHA1.hexdigest. apply hex_words_digest. Qed.

Lemma digest_prefix_length (s : str) :
  is_digest s = true → String.length (Py.str_take 2 s) = 2%nat.
Proof.
  unfold is_digest. intros [Hl _]%andb_prop. apply Nat.eqb_eq in Hl.
  destruct s as [|a [|b s]]; simpl in Hl; try discriminate.
  unfold Py.str_take. simpl. by destruct s.
Qed.

(** ** Object store *)

Section StoreProperties.
Context `{Zlib}.

Implicit Types (fs : objdir) (store : bytes).

Lemma write_object_blocked store fs data :
  fs !! Py.str_take 2 (SHA1.hexdigest store) = Some (File data) →
  _write_object store fs = Raise FileExistsError.
Proof. intros Hp. unfold _write_object, mkdir. by rewrite Hp. Qed.

Lemma write_object_fresh store fs :
  let sha1 := SHA1.hexdigest store in
  fs !! Py.str_take 2 sha1 = None →
  _write_object store fs =
    Ok (sha1, <[Py.str_take 2 sha1 := Dir {[Py.str_drop 2 sha1 := compress store]}]> fs).
Proof.
  intros sha1 Hp. unfold _write_object, mkdir. fold sha1. rewrite Hp. simpl.
  rewrite lookup_insert_eq, lookup_empty. simpl.
  unfold write_bytes. rewrite lookup_insert_eq. simpl.
  by rewrite insert_insert_eq, insert_empty.
Qed.

Lemma write_object_bucket store fs files :
  let sha1 := SHA1.hexdigest store in
  fs !! Py.str_take 2 sha1 = Some (Dir files) →
  files !! Py.str_drop 2 sha1 = None →
  _write_object store fs =
    Ok (sha1, <[Py.str_take 2 sha1 :=
                  Dir (<[Py.str_drop 2 sha1 := compress store]> files)]> fs).
Proof.
  intros sha1 Hp Hr. unfold _write_object, mkdir. fold sha1. rewrite Hp. simpl.
  rewrite Hp, Hr. simpl. unfold write_bytes. by rewrite Hp.
Qed.

Lemma write_object_skip store fs :
  let sha1 := SHA1.hexdigest store in
  path_exists fs (Nested (Py.str_take 2 sha1) (Py.str_drop 2 sha1)) = true →
  _write_object store fs = Ok (sha1, fs).
Proof.
  intros sha1 He. unfold _write_object, mkdir. fold sha1.
  simpl in He. destruct (fs !! Py.str_take 2 sha1) as [[|files]|] eqn:Hp;
    try discriminate.
  simpl. by rewrite Hp, He.
Qed.

(** Whatever the state of the directory, a write that returns gives the
    SHA-1 of what it was given, and its fan-out file exists afterwards. *)
Lemma write_object_inv store fs s fs' :
  _write_object store fs = Ok (s, fs') →
  s = SHA1.hexdigest store
  ∧ path_exists fs' (Nested (Py.str_take 2 s) (Py.str_drop 2 s)) = true.
Proof.
  set (sha1 := SHA1.hexdigest store).
  destruct (fs !! Py.str_take 2 sha1) as [[d|files]|] eqn:Hp.
  - rewrite (write_object_blocked _ _ d) by done. discriminate.
  - destruct (files !! Py.str_drop 2 sha1) as [c|] eqn:Hr.
    + rewrite write_object_skip.
      * intros [= <- <-]. split; [done|]. simpl. fold sha1.
        rewrite Hp, Hr. by apply bool_decide_eq_true_2.
      * simpl. fold sha1. rewrite Hp, Hr. by apply bool_decide_eq_true_2.
    + rewrite (write_object_bucket _ _ files) by done.
      intros [= <- <-]. split; [done|]. simpl. fold sha1.
      rewrite lookup_insert_eq, lookup_insert_eq.
      by apply bool_decide_eq_true_2.
  - rewrite write_object_fresh by done.
    intros [= <- <-]. split; [done|]. simpl. fold sha1.
    rewrite lookup_insert_eq, lookup_singleton_eq.
    by apply bool_decide_eq_true_2.
Qed.
End StoreProperties.

(** C8. For a digest, the object is looked for at the fan-out path first
    and at the flat path (the digest as one file name) second.  When
    neither exists the read raises [FileNotFoundError], and [cat-file -p]
    ends with status 1, an error message on standard error and nothing on
    standard output. *)
Theorem read_locates_object `{Zlib} (fs : objdir) (sha1 : str) :
  is_digest sha1 = true →
  let fanout := Nested (Py.str_take 2 sha1) (Py.str_drop 2 sha1) in
  let flat := Top sha1 in
  (path_exists fs fanout = true →
     _object_path fs sha1 = Some fanout
     ∧ _read_object fs sha1 = bind (read_bytes fs fanout) decompress)
  ∧ (path_exists fs fanout = false → path_exists fs flat = true →
       _object_path fs sha1 = Some flat
       ∧ _read_object fs sha1 = bind (read_bytes fs flat) decompress)
  ∧ (path_exists fs fanout = false → path_exists fs flat = false →
       _object_path fs sha1 = None
       ∧ _read_object fs sha1 = Raise FileNotFoundError
       ∧ cat_file_p fs sha1 = Exited 1 (print "fatal: object not found")
       ∧ status (cat_file_p fs sha1) = 1
       ∧ stdout (cat_file_p fs sha1) = []).
Proof.
  intros _ fanout flat.
  assert (_object_path fs sha1 =
            if path_exists fs fanout then Some fanout
            else if path_exists fs flat then Some flat else None) as Hpath
    by reflexivity.
  split; [|split].
  - intros He. rewrite He in Hpath. split; [done|].
    unfold _read_object. by rewrite Hpath.
  - intros He Hf. rewrite He, Hf in Hpath. split; [done|].
    unfold _read_object. by rewrite Hpath.
  - intros He Hf. rewrite He, Hf in Hpath.
    assert (_read_object fs sha1 = Raise FileNotFoundError) as Hread
      by (unfold _read_object; by rewrite Hpath).
    assert (cat_file_p fs sha1 = Exited 1 (print "fatal: object not found"))
      as Hcat by (unfold cat_file_p; by rewrite Hread).
    by rewrite Hcat.
Qed.

Lemma read_locates_object_witness :
  @cat_file_p Framed.zlib ∅ Sample.hello_sha =
    Exited 1 (print "fatal: object not found")
  ∧ _object_path Sample.both_layouts Sample.hello_sha =
      Some (Nested Sample.hello_dir Sample.hello_name)
  ∧ _object_path Sample.flat_only Sample.hello_sha = Some (Top Sample.hello_sha).
Proof.
  split; [|split].
  - exact (proj1 (proj2 (proj2 (proj2 (proj2
      (@read_locates_object Framed.zlib ∅ Sample.hello_sha eq_refl))
      eq_refl eq_refl)))).
  - exact (proj1 (proj1
      (@read_locates_object Framed.zlib Sample.both_layouts Sample.hello_sha
         eq_refl) eq_refl)).
  - exact (proj1 (proj1 (proj2
      (@read_locates_object Framed.zlib Sample.flat_only Sample.hello_sha
         eq_refl)) eq_refl eq_refl)).
Defined.

Section Dedup.
Context `{Zlib}.

(** What a write does, by the state of the fan-out location. *)
Lemma write_object_cases (store : bytes) (fs : objdir) :
  let sha1 := SHA1.hexdigest store in
  let d := Py.str_take 2 sha1 in
  let n := Py.str_drop 2 sha1 in
  _write_object store fs =
    match fs !! d with
    | Some (File _) => Raise FileExistsError
    | Some (Dir files) =>
        match files !! n with
        | Some _ => Ok (sha1, fs)
        | None => Ok (sha1, <[d := Dir (<[n := compress store]> files)]> fs)
        end
    | None => Ok (sha1, <[d := Dir {[n := compress store]}]> fs)
    end.
Proof.
  intros sha1 d n. destruct (fs !! d) as [[c|files]|] eqn:Hd.
  - by apply (write_object_blocked _ _ c).
  - destruct (files !! n) as [c|] eqn:Hn.
    + apply write_object_skip. simpl. fold sha1 d n. rewrite Hd, Hn.
      by apply bool_decide_eq_true_2.
    + by apply write_object_bucket.
  - by apply write_object_fresh.
Qed.

Lemma write_object_twice (store : bytes) (fs fs1 : objdir) (s : str) :
  _write_object store fs = Ok (s, fs1) → _write_object store fs1 = Ok (s, fs1).
Proof.
  intros Hw. destruct (write_object_inv _ _ _ _ Hw) as [-> He].
  by apply write_object_skip.
Qed.

(** C1, as the code has it.  A write is skipped exactly when something
    exists at the fan-out location of the digest; the flat location plays
    no part in a write.  When the fan-out location is free the compressed
    object is written there.  Writing the same object a second time
    changes nothing, and two writes into an empty object directory leave
    one file. *)
Theorem write_object_dedup (store : bytes) (fs : objdir) :
  let sha1 := SHA1.hexdigest store in
  let fanout := Nested (Py.str_take 2 sha1) (Py.str_drop 2 sha1) in
  (path_exists fs fanout = true → _write_object store fs = Ok (sha1, fs))
  ∧ (path_exists fs fanout = false →
       ∀ s fs1, _write_object store fs = Ok (s, fs1) →
         fs1 ≠ fs ∧ read_bytes fs1 fanout = Ok (compress store)
         ∧ read_bytes fs1 (Top sha1) = read_bytes fs (Top sha1))
  ∧ (∀ s fs1, _write_object store fs = Ok (s, fs1) →
       _write_object store fs1 = Ok (s, fs1))
  ∧ (let fs1 := {[Py.str_take 2 sha1 := Dir {[Py.str_drop 2 sha1 := compress store]}]} in
     _write_object store ∅ = Ok (sha1, fs1)
     ∧ _write_object store fs1 = Ok (sha1, fs1)).
Proof.
  intros sha1 fanout. split; [|split; [|split]].
  - apply write_object_skip.
  - intros He s fs1. rewrite write_object_cases. fold sha1.
    simpl in He. fold sha1 in He.
    pose proof (digest_prefix_length sha1 (hexdigest_is_digest store)) as Hl.
    assert (Py.str_take 2 sha1 ≠ sha1) as Hne.
    { intros E. rewrite E in Hl.
      pose proof (hexdigest_is_digest store) as Hd. fold sha1 in Hd.
      unfold is_digest in Hd. apply andb_prop in Hd as [Hd _].
      apply Nat.eqb_eq in Hd. lia. }
    destruct (fs !! Py.str_take 2 sha1) as [[c|files]|] eqn:Hd;
      [discriminate| |].
    + destruct (files !! Py.str_drop 2 sha1) as [c|] eqn:Hn.
      { apply bool_decide_eq_false_1 in He. destruct He. eauto. }
      intros [= <- <-]. split; [|split].
      * intros E. apply (f_equal (λ m, m !! Py.str_take 2 sha1)) in E.
        rewrite lookup_insert_eq, Hd in E. injection E as E.
        apply (f_equal (λ m, m !! Py.str_drop 2 sha1)) in E.
        by rewrite lookup_insert_eq, Hn in E.
      * simpl. by rewrite lookup_insert_eq, lookup_insert_eq.
      * simpl. by rewrite lookup_insert_ne.
    + intros [= <- <-]. split; [|split].
      * intros E. apply (f_equal (λ m, m !! Py.str_take 2 sha1)) in E.
        by rewrite lookup_insert_eq, Hd in E.
      * simpl. by rewrite lookup_insert_eq, lookup_singleton_eq.
      * simpl. by rewrite lookup_insert_ne.
  - intros s fs1. apply write_object_twice.
  - cbv zeta. split.
    + by rewrite write_object_fresh, insert_empty.
    + apply write_object_skip. simpl. fold sha1.
      rewrite lookup_singleton_eq, lookup_singleton_eq.
      by apply bool_decide_eq_true_2.
Qed.
End Dedup.

Lemma hello_digest : SHA1.hexdigest Sample.hello_store = Sample.hello_sha.
Proof. by vm_compute. Qed.

Lemma write_object_dedup_witness :
  @_write_object Framed.zlib Sample.hello_store Sample.both_layouts =
    Ok (SHA1.hexdigest Sample.hello_store, Sample.both_layouts).
Proof.
  refine (proj1 (@write_object_dedup Framed.zlib Sample.hello_store
                  Sample.both_layouts) _).
  vm_compute. reflexivity.
Defined.

(** C1 as stated fails: with the object present at the flat location only,
    the write is not skipped, and the object is on disk twice afterwards. *)
Lemma write_ignores_flat_location :
  SHA1.hexdigest Sample.hello_store = Sample.hello_sha
  ∧ path_exists Sample.flat_only (Top Sample.hello_sha) = true
  ∧ @_write_object Framed.zlib Sample.hello_store Sample.flat_only =
      Ok (Sample.hello_sha, Sample.both_layouts)
  ∧ Sample.both_layouts ≠ Sample.flat_only
  ∧ read_bytes Sample.both_layouts (Top Sample.hello_sha) =
      Ok (Framed.pack Sample.hello_store)
  ∧ read_bytes Sample.both_layouts (Nested Sample.hello_dir Sample.hello_name) =
      Ok (Framed.pack Sample.hello_store).
Proof.
  split; [apply hello_digest|]. split; [by vm_compute|].
  split; [rewrite write_object_fresh; rewrite hello_digest; reflexivity|].
  split; [|split; vm_compute; reflexivity].
  intros E. apply (f_equal (λ m : objdir, m !! Sample.hello_dir)) in E.
  vm_compute in E. discriminate.
Qed.

(** ** Digests *)

Section Digest.
Context `{Zlib}.

Lemma header_repr (kind : str) (body : bytes) :
  Py.encode (kind +:+ " ") ++ Py.encode (Py.str_of_len body) ++ [NUL] ++ body =
  object_repr kind body.
Proof. unfold object_repr. by rewrite !encode_app, <-!app_assoc. Qed.

Lemma write_blob_repr (data : bytes) (fs : objdir) :
  _write_blob data fs = _write_object (object_repr "blob" data) fs.
Proof. unfold _write_blob. by rewrite <-header_repr. Qed.

Lemma write_tree_object_repr (entries : list entry) (fs : objdir) :
  write_tree_object entries fs =
  bind (encode_tree entries) (λ body, _write_object (object_repr "tree" body) fs).
Proof.
  unfold write_tree_object. destruct (encode_tree entries) as [body|]; [|done].
  simpl. by rewrite <-header_repr.
Qed.

Lemma commit_tree_repr tree_sha parent_sha timestamp message (fs : objdir) :
  commit_tree tree_sha parent_sha timestamp message fs =
  bind (_write_object
          (object_repr "commit"
             (Py.encode (commit_content tree_sha parent_sha timestamp message))) fs)
       (λ '(sha1, fs), Ok (print sha1, fs)).
Proof. unfold commit_tree. by rewrite <-header_repr. Qed.

(** C4. The digest a write returns is the SHA-1, as 40 lowercase
    hexadecimal digits, of ["<kind> <len(body)>\0" + body], for blobs,
    trees and commits alike; it depends on nothing but these bytes, so
    two writes of the same object return the same digest whatever the
    object directory holds; the blob of [hello] is the hash of
    ["blob 5\0hello"]. *)
Theorem write_returns_digest (fs fs' : objdir) :
  (∀ store s, _write_object store fs = Ok (s, fs') →
     s = SHA1.hexdigest store ∧ is_digest s = true)
  ∧ (∀ data s, _write_blob data fs = Ok (s, fs') →
       s = SHA1.hexdigest (object_repr "blob" data))
  ∧ (∀ data out, hash_object_w data fs = Ok (out, fs') →
       out = print (SHA1.hexdigest (object_repr "blob" data)))
  ∧ (∀ entries s, write_tree_object entries fs = Ok (s, fs') →
       ∃ body, encode_tree entries = Ok body
               ∧ s = SHA1.hexdigest (object_repr "tree" body))
  ∧ (∀ tree_sha parent_sha timestamp message out,
       commit_tree tree_sha parent_sha timestamp message fs = Ok (out, fs') →
       out = print (SHA1.hexdigest
               (object_repr "commit"
                  (Py.encode (commit_content tree_sha parent_sha timestamp message)))))
  ∧ (∀ s, _write_blob Sample.hello fs = Ok (s, fs') →
       s = SHA1.hexdigest (Py.B "blob 5" ++ [NUL] ++ Py.B "hello")
       ∧ s = "b6fc4c620b67d95f953a5c1c1230aaab5db5a1b0")
  ∧ (∀ store s fs2 s2 fs2',
       _write_object store fs = Ok (s, fs') →
       _write_object store fs2 = Ok (s2, fs2') → s = s2)
  ∧ (∀ store,
       (∀ d, fs !! Py.str_take 2 (SHA1.hexdigest store) ≠ Some (File d)) →
       ∃ fs1, _write_object store fs = Ok (SHA1.hexdigest store, fs1)).
Proof.
  split; [|split; [|split; [|split; [|split; [|split; [|split]]]]]].
  - intros store s Hw. apply write_object_inv in Hw as [-> _].
    split; [done | apply hexdigest_is_digest].
  - intros data s. rewrite write_blob_repr.
    by intros [-> _]%write_object_inv.
  - intros data out. unfold hash_object_w. fold (_write_blob data fs).
    rewrite write_blob_repr.
    destruct (_write_object _ fs) as [[s fs1]|] eqn:Hw; [|done].
    apply write_object_inv in Hw as [-> _]. simpl. by intros [= <- _].
  - intros entries s. rewrite write_tree_object_repr.
    destruct (encode_tree entries) as [body|]; [|done]. simpl.
    intros [-> _]%write_object_inv. eauto.
  - intros tree_sha parent_sha timestamp message out. rewrite commit_tree_repr.
    destruct (_write_object _ fs) as [[s fs1]|] eqn:Hw; [|done].
    apply write_object_inv in Hw as [-> _]. simpl. by intros [= <- _].
  - intros s. unfold _write_blob.
    change (Py.B "blob " ++ Py.encode (Py.str_of_len Sample.hello) ++ [NUL] ++ Sample.hello)
      with Sample.hello_store.
    intros [-> _]%write_object_inv. split; [done | apply hello_digest].
  - intros store s fs2 s2 fs2' [-> _]%write_object_inv [-> _]%write_object_inv.
    done.
  - intros store Hfree. rewrite write_object_cases.
    destruct (fs !! _) as [[d|files]|] eqn:Hd.
    + by destruct (Hfree d).
    + destruct (files !! _); eauto.
    + eauto.
Qed.
End Digest.

Lemma write_returns_digest_witness :
  "b6fc4c620b67d95f953a5c1c1230aaab5db5a1b0" =
    SHA1.hexdigest (Py.B "blob 5" ++ [NUL] ++ Py.B "hello")
  ∧ SHA1.hexdigest (Py.B "blob 5" ++ [NUL] ++ Py.B "hello") =
      "b6fc4c620b67d95f953a5c1c1230aaab5db5a1b0".
Proof.
  refine (proj1 (proj2 (proj2 (proj2 (proj2 (proj2
    (@write_returns_digest Framed.zlib ∅
       {[Sample.hello_dir := Dir {[Sample.hello_name := Framed.pack Sample.hello_store]}]}))))))
    Sample.hello_sha _).
  change (@_write_object Framed.zlib Sample.hello_store ∅ = 
          Ok (Sample.hello_sha,
              {[Sample.hello_dir := Dir {[Sample.hello_name := Framed.pack Sample.hello_store]}]})).
  rewrite write_object_fresh; rewrite hello_digest; reflexivity.
Defined.

(** ** Slicing and searching *)

Lemma clamp_in_range (i n : Z) : 0 ≤ i ≤ n → Py.clamp i n = i.
Proof. intros Hi. unfold Py.clamp. destruct (Z.ltb_spec i 0); lia. Qed.

Lemma len_app {A} (l k : list A) : Py.len (l ++ k) = Py.len l + Py.len k.
Proof. unfold Py.len. rewrite length_app. lia. Qed.

Lemma len_nonneg {A} (l : list A) : 0 ≤ Py.len l.
Proof. unfold Py.len. lia. Qed.

Lemma index_of_first (c : byte) (u v : bytes) :
  Py.index_of c u = None → Py.index_of c (u ++ c :: v) = Some (length u).
Proof.
  induction u as [|x u IH]; simpl.
  - intros _. by rewrite (byte_dec_lb eq_refl).
  - destruct (Byte.eqb x c); [done|].
    destruct (Py.index_of c u); [done|]. intros _. by rewrite IH.
Qed.

Lemma find_first (pre u v : bytes) (c : byte) :
  Py.index_of c u = None →
  Py.find (pre ++ u ++ c :: v) c (Py.len pre) = Py.len pre + Py.len u.
Proof.
  intros Hu. unfold Py.find.
  rewrite clamp_in_range
    by (rewrite len_app; pose proof (len_nonneg pre);
        pose proof (len_nonneg (u ++ c :: v)); lia).
  unfold Py.len at 1. rewrite Nat2Z.id, drop_app_length.
  by rewrite index_of_first.
Qed.

Lemma slice_middle {A} (pre u v : list A) :
  Py.slice (pre ++ u ++ v) (Py.len pre) (Py.len pre + Py.len u) = u.
Proof.
  unfold Py.slice.
  pose proof (len_nonneg pre). pose proof (len_nonneg u). pose proof (len_nonneg v).
  rewrite !clamp_in_range by (rewrite !len_app; lia).
  replace (Py.len pre + Py.len u - Py.len pre) with (Py.len u) by lia.
  unfold Py.len. rewrite !Nat2Z.id, drop_app_length. apply take_app_length.
Qed.

Lemma decode_encode (s : str) :
  Py.utf8_valid (Py.encode s) = true → Py.decode (Py.encode s) = Ok s.
Proof.
  intros Hv. unfold Py.decode. rewrite Hv. unfold Py.encode.
  by rewrite string_of_list_byte_of_string.
Qed.

(** ** Hexadecimal *)

Lemma hex_digit_inv (c : ascii) :
  is_lower_hex c = true →
  ∃ h, (h < 16)%N ∧ Py.hexval c = Some h ∧ Py.hexdigit h = c
       ∧ Py.is_space c = false.
Proof.
  intros Hc.
  destruct c as [[] [] [] [] [] [] [] []]; try discriminate Hc;
    (eexists; split; [|split; [reflexivity | split; reflexivity]]; reflexivity).
Qed.

Lemma hex_pair (c d : ascii) :
  is_lower_hex c = true → is_lower_hex d = true →
  ∃ x, Py.is_space c = false
       ∧ match Py.hexval c, Py.hexval d with
         | Some h, Some l => Byte.of_N (16 * h + l)
         | _, _ => None
         end = Some x
       ∧ Py.hex_byte x = String c (String d "").
Proof.
  intros (h & Hh & -> & <- & Hs)%hex_digit_inv (l & Hl & -> & <- & _)%hex_digit_inv.
  destruct (Byte.of_N (16 * h + l)) as [x|] eqn:Hx.
  - exists x. split; [done|]. split; [done|].
    apply Byte.to_of_N in Hx. unfold Py.hex_byte. rewrite Hx.
    replace ((16 * h + l) / 16)%N with h
      by (apply (N.div_unique _ 16 h l); lia).
    by replace ((16 * h + l) mod 16)%N with l
      by (apply (N.mod_unique _ 16 h l); lia).
  - pose proof (Byte.to_of_N_option_map (16 * h + l)) as Hm.
    rewrite Hx in Hm. simpl in Hm.
    destruct (N.leb_spec (16 * h + l) 255); [done | lia].
Qed.

Lemma fromhex_pairs (n : nat) (s : str) :
  String.length s = (2 * n)%nat →
  forallb is_lower_hex (list_ascii_of_string s) = true →
  ∃ raw, Py.fromhex s = Ok raw ∧ Py.hex raw = s ∧ length raw = n.
Proof.
  revert s. induction n as [|n IH]; intros s Hlen Hhex.
  - destruct s; [|done]. by exists [].
  - destruct s as [|c [|d s]]; simpl in Hlen; try lia.
    cbn [list_ascii_of_string forallb] in Hhex.
    apply andb_prop in Hhex as [Hc [Hd Hrest]%andb_prop].
    destruct (IH s) as (raw & Hraw & Hhexraw & Hn); [lia | done |].
    destruct (hex_pair c d Hc Hd) as (x & Hs & Hx & Hxhex).
    exists (x :: raw). split; [|split].
    + cbn [Py.fromhex]. rewrite Hs.
      destruct (Py.hexval c), (Py.hexval d); try discriminate Hx.
      rewrite Hx, Hraw. done.
    + cbn [Py.hex]. by rewrite Hxhex, Hhexraw.
    + simpl. by rewrite Hn.
Qed.

Lemma fromhex_digest (s : str) :
  is_digest s = true →
  ∃ raw, Py.fromhex s = Ok raw ∧ Py.hex raw = s ∧ length raw = 20%nat.
Proof.
  unfold is_digest. intros [Hl Hhex]%andb_prop. apply Nat.eqb_eq in Hl.
  by apply fromhex_pairs.
Qed.

(** ** Tree codec *)

Lemma mode_ok_bytes (mode : str) :
  mode_ok mode →
  Py.index_of " " (Py.encode mode) = None
  ∧ Py.utf8_valid (Py.encode mode) = true.
Proof. by intros [->|[->| ->]]. Qed.

(** One turn of the loop started where the encoding of an entry starts
    reads that entry and stops right behind it. *)
Lemma scan_entry_at (pre post raw : bytes) (name mode sha : str) :
  name_ok name → mode_ok mode → Py.hex raw = sha → length raw = 20%nat →
  let enc := Py.encode mode ++ Py.B " " ++ Py.encode name ++ [NUL] ++ raw in
  scan_entry (pre ++ enc ++ post) (Py.len pre) =
    Ok ((name, mode, sha), Py.len pre + Py.len enc).
Proof.
  intros [Hnul Hname] [Hsp Hmode]%mode_ok_bytes Hhex Hraw enc.
  unfold scan_entry, enc.
  change (Py.B " ") with [" "%byte].
  set (m := Py.encode mode). set (nm := Py.encode name).
  set (body := pre ++ (m ++ [" "%byte] ++ nm ++ [NUL] ++ raw) ++ post).
  pose proof (len_nonneg pre). pose proof (len_nonneg m).
  assert (Py.len [" "%byte] = 1 ∧ Py.len [NUL] = 1 ∧ Py.len raw = 20)
    as (Hsp1 & Hnul1 & Hraw20) by (unfold Py.len; simpl; lia).
  assert (Py.find body " " (Py.len pre) = Py.len pre + Py.len m) as ->.
  { unfold body. rewrite <-!app_assoc. by apply find_first. }
  assert (Py.slice body (Py.len pre) (Py.len pre + Py.len m) = m) as ->.
  { unfold body. rewrite <-!app_assoc. apply slice_middle. }
  unfold m at 1. rewrite decode_encode by done. cbn [bind].
  assert (body = (pre ++ m ++ [" "%byte]) ++ nm ++ NUL :: (raw ++ post)) as Hb.
  { unfold body. by rewrite <-!app_assoc. }
  assert (Py.len pre + Py.len m + 1 = Py.len (pre ++ m ++ [" "%byte])) as Hi.
  { rewrite !len_app. lia. }
  assert (Py.find body NUL (Py.len pre + Py.len m + 1)
          = Py.len (pre ++ m ++ [" "%byte]) + Py.len nm) as ->.
  { rewrite Hi, Hb. by apply find_first. }
  assert (Py.slice body (Py.len pre + Py.len m + 1)
            (Py.len (pre ++ m ++ [" "%byte]) + Py.len nm) = nm) as ->.
  { rewrite Hi, Hb. apply slice_middle. }
  unfold nm at 1. rewrite decode_encode by done. cbn [bind].
  assert (Py.slice body (Py.len (pre ++ m ++ [" "%byte]) + Py.len nm + 1)
            (Py.len (pre ++ m ++ [" "%byte]) + Py.len nm + 1 + 20) = raw) as ->.
  { replace (Py.len (pre ++ m ++ [" "%byte]) + Py.len nm + 1)
      with (Py.len (pre ++ m ++ [" "%byte] ++ nm ++ [NUL]))
      by (rewrite !len_app; lia).
    rewrite <-Hraw20.
    replace body with ((pre ++ m ++ [" "%byte] ++ nm ++ [NUL]) ++ raw ++ post)
      by (unfold body; by rewrite <-!app_assoc).
    apply slice_middle. }
  rewrite Hhex. do 2 f_equal. rewrite !len_app. lia.
Qed.

Lemma encode_entry_ok (e : entry) :
  entry_ok e →
  ∃ raw, Py.hex raw = e.2 ∧ length raw = 20%nat
         ∧ encode_entry e =
             Ok (Py.encode e.1.2 ++ Py.B " " ++ Py.encode e.1.1 ++ [NUL] ++ raw).
Proof.
  destruct e as [[name mode] sha]. intros (_ & _ & Hd). simpl in *.
  destruct (fromhex_digest sha Hd) as (raw & Hraw & Hhex & Hlen).
  exists raw. by rewrite Hraw.
Qed.

Lemma scan_entries (entries : list entry) :
  Forall entry_ok entries →
  ∃ body, encode_tree entries = Ok body
    ∧ ∀ pre acc,
        scan (length entries) (pre ++ body) (Py.len pre) acc
          = Some (Ok (acc ++ entries))
        ∧ ∀ fuel, (fuel < length entries)%nat →
            scan fuel (pre ++ body) (Py.len pre) acc = None.
Proof.
  induction 1 as [|e entries He _ (body & Hbody & IH)].
  - exists []. split; [done|]. intros pre acc. split; [|intros fuel Hf; simpl in Hf; lia].
    rewrite !app_nil_r. simpl. by rewrite Z.ltb_irrefl.
  - destruct (encode_entry_ok e He) as (raw & Hhex & Hlen & Henc).
    destruct e as [[name mode] sha]. destruct He as (Hn & Hm & _).
    cbn [fst snd] in Hhex, Henc, Hn, Hm.
    set (enc := Py.encode mode ++ Py.B " " ++ Py.encode name ++ [NUL] ++ raw) in *.
    exists (enc ++ body). split.
    { cbn [encode_tree]. rewrite Henc. cbn [bind]. by rewrite Hbody. }
    intros pre acc.
    assert ((Py.len pre <? Py.len (pre ++ enc ++ body)) = true) as Hlt.
    { apply Z.ltb_lt. rewrite !len_app. pose proof (len_nonneg body).
      unfold enc. rewrite !len_app. unfold Py.len. simpl. lia. }
    assert (scan_entry (pre ++ enc ++ body) (Py.len pre)
            = Ok ((name, mode, sha), Py.len (pre ++ enc))) as Hstep.
    { rewrite len_app. by apply scan_entry_at. }
    destruct (IH (pre ++ enc) (acc ++ [(name, mode, sha)])) as [Hfull Hshort].
    rewrite <-(app_assoc pre enc body) in Hfull. split.
    + cbn [length scan]. rewrite Hlt, Hstep.
      etrans; [apply Hfull|]. by rewrite <-app_assoc.
    + intros [|fuel] Hf; cbn [scan]; rewrite Hlt; [done|].
      rewrite Hstep. specialize (Hshort fuel).
      rewrite <-(app_assoc pre enc body) in Hshort.
      apply Hshort. simpl in Hf. lia.
Qed.

Lemma scan_more_fuel (fuel fuel' : nat) (body : bytes) (i : Z) acc r :
  scan fuel body i acc = Some r → (fuel ≤ fuel')%nat →
  scan fuel' body i acc = Some r.
Proof.
  revert fuel' i acc. induction fuel as [|fuel IH]; intros fuel' i acc.
  - simpl. destruct (i <? Py.len body) eqn:Hi; [done|].
    intros Hr _. destruct fuel'; simpl; by rewrite Hi.
  - intros Hr Hle. destruct fuel' as [|fuel']; [lia|].
    cbn [scan] in *. destruct (i <? Py.len body); [|done].
    destruct (scan_entry body i) as [[e i']|]; [|done].
    apply IH; [done | lia].
Qed.

Lemma scan_raises (fuel : nat) (body : bytes) (i : Z) acc e :
  scan fuel body i acc = Some (Raise e) → e = UnicodeDecodeError.
Proof.
  revert i acc. induction fuel as [|fuel IH]; intros i acc; cbn [scan].
  - by destruct (i <? Py.len body).
  - destruct (i <? Py.len body); [|done].
    destruct (scan_entry body i) as [[e' i']|e'] eqn:Hstep; [apply IH|].
    intros [= <-]. unfold scan_entry, Py.decode in Hstep.
    repeat (destruct (Py.utf8_valid _) in Hstep; cbn [bind] in Hstep);
      congruence.
Qed.

Lemma encode_tree_chunks (entries : list entry) :
  Forall entry_ok entries →
  ∃ chunks, Forall2 is_chunk entries chunks
            ∧ encode_tree entries = Ok (concat chunks).
Proof.
  induction 1 as [|e entries He _ (chunks & Hch & Henc)].
  - exists []. by split.
  - destruct (encode_entry_ok e He) as (raw & Hhex & Hlen & Hraw).
    eexists (_ :: chunks). split.
    + constructor; [|done]. by exists raw.
    + cbn [encode_tree]. by rewrite Hraw, Henc.
Qed.

(** C5. An entry list whose entries are well formed (a name without null
    byte, a mode of [_file_mode], a digest) is encoded as the chunks of its
    entries in order, and scanning that body with the loop of [ls_tree]
    gives the entry list back, once the loop is given as many turns as
    there are entries.  The order of the names plays no part. *)
Theorem tree_round_trip (entries : list entry) :
  Forall entry_ok entries →
  ∃ chunks,
    Forall2 is_chunk entries chunks
    ∧ encode_tree entries = Ok (concat chunks)
    ∧ ∀ fuel, (length entries ≤ fuel)%nat →
        scan fuel (concat chunks) 0 [] = Some (Ok entries).
Proof.
  intros Hok.
  destruct (encode_tree_chunks entries Hok) as (chunks & Hch & Henc).
  destruct (scan_entries entries Hok) as (body & Hbody & Hscan).
  assert (body = concat chunks) as -> by congruence.
  exists chunks. split; [done|]. split; [done|].
  intros fuel Hf. destruct (Hscan [] []) as [Hfull _].
  by apply (scan_more_fuel (length entries)).
Qed.

Lemma one_entry_ok : Forall entry_ok Sample.one_entry.
Proof.
  constructor; [|constructor].
  split; [by split|]. split; [right; by right | reflexivity].
Qed.

Lemma tree_round_trip_witness :
  ∃ chunks,
    Forall2 is_chunk Sample.one_entry chunks
    ∧ encode_tree Sample.one_entry = Ok (concat chunks)
    ∧ ∀ fuel, (length Sample.one_entry ≤ fuel)%nat →
        scan fuel (concat chunks) 0 [] = Some (Ok Sample.one_entry).
Proof. exact (tree_round_trip Sample.one_entry one_entry_ok). Defined.

(** C2 as stated fails: a body with neither a space nor a null byte, and
    shorter than a digest, is decoded into one entry without any error. *)
Lemma scan_accepts_missing_delimiters :
  Py.find Sample.short_body " " 0 = -1
  ∧ Py.find Sample.short_body NUL 0 = -1
  ∧ Py.len Sample.short_body < 20
  ∧ scan 1 Sample.short_body 0 [] = Some (Ok [("ab", "ab", "616263")]).
Proof. by vm_compute. Qed.

(** C2, as the code has it.  The loop of [ls_tree] checks neither the
    delimiters nor the length of a digest, and the one exception it can
    raise is [UnicodeDecodeError], for a mode or a name that is not UTF-8.
    On the encoding of a well-formed entry list it takes one turn per
    entry, from left to right, and stops when the body is exhausted, with
    the entries that were encoded. *)
Theorem scan_well_formed (entries : list entry) :
  Forall entry_ok entries →
  (∀ fuel body e, scan fuel body 0 [] = Some (Raise e) → e = UnicodeDecodeError)
  ∧ ∃ body,
      encode_tree entries = Ok body
      ∧ scan (length entries) body 0 [] = Some (Ok entries)
      ∧ ∀ fuel, (fuel < length entries)%nat → scan fuel body 0 [] = None.
Proof.
  intros Hok. split; [intros fuel body e; apply scan_raises|].
  destruct (scan_entries entries Hok) as (body & Hbody & Hscan).
  exists body. split; [done|]. apply (Hscan [] []).
Qed.

Lemma scan_well_formed_witness :
  ∃ body,
    encode_tree Sample.one_entry = Ok body
    ∧ scan 1 body 0 [] = Some (Ok Sample.one_entry)
    ∧ ∀ fuel, (fuel < 1)%nat → scan fuel body 0 [] = None.
Proof. exact (proj2 (scan_well_formed Sample.one_entry one_entry_ok)). Defined.

(** In [looping_body] a turn started at index 21 ends at index 21. *)
Lemma scan_entry_stuck :
  scan_entry Sample.looping_body 0 =
    Ok (("", String "000"%char "xxxxxxxxxxxxxxxxxxxxxx",
         "7878787878787878787878787878787878787878"), 21)
  ∧ scan_entry Sample.looping_body 21 =
      Ok (("", "xx", "7878787878787878787878787878787878787878"), 21)
  ∧ 21 < Py.len Sample.looping_body.
Proof. by vm_compute. Qed.

Lemma scan_stuck (fuel : nat) acc :
  scan fuel Sample.looping_body 21 acc = None.
Proof.
  revert acc. induction fuel as [|fuel IH]; intros acc; [done|].
  destruct scan_entry_stuck as (_ & Hstep & _).
  cbn [scan]. rewrite Hstep. apply IH.
Qed.

Lemma scan_never_ends (fuel : nat) :
  scan fuel Sample.looping_body 0 [] = None.
Proof.
  destruct fuel as [|fuel]; [done|].
  destruct scan_entry_stuck as (Hfirst & _ & _).
  cbn [scan]. rewrite Hfirst. apply scan_stuck.
Qed.

(** ** Reading back what was written *)

Lemma index_of_absent (c : byte) (l : bytes) :
  Forall (λ x, x ≠ c) l → Py.index_of c l = None.
Proof.
  induction 1 as [|x l Hx _ IH]; [done|]. simpl.
  destruct (Byte.eqb x c) eqn:E; [by apply byte_dec_bl in E|].
  by rewrite IH.
Qed.

Lemma digit_byte (d : N) :
  (d < 10)%N → Byte.to_N (byte_of_ascii (Py.digit d)) = (48 + d)%N.
Proof.
  intros Hd. apply Byte.to_of_N. rewrite byte_of_ascii_via_N.
  unfold Py.digit. by rewrite N_ascii_embedding by lia.
Qed.

Lemma digits_bytes (fuel : nat) (n : N) (acc : str) :
  Forall (λ x, (48 ≤ Byte.to_N x ≤ 57)%N) (Py.encode acc) →
  Forall (λ x, (48 ≤ Byte.to_N x ≤ 57)%N) (Py.encode (Py.digits fuel n acc)).
Proof.
  revert n acc. induction fuel as [|fuel IH]; intros n acc Hacc; [done|].
  cbn [Py.digits].
  assert (Forall (λ x, (48 ≤ Byte.to_N x ≤ 57)%N)
            (Py.encode (String (Py.digit (n mod 10)) acc))) as Hacc'.
  { change (Py.encode (String ?c ?s)) with (byte_of_ascii c :: Py.encode s).
    constructor; [|done]. rewrite digit_byte by (apply N.mod_lt; lia).
    pose proof (N.mod_lt n 10 ltac:(lia)) as Hr.
    revert Hr. generalize (n mod 10)%N. intros r Hr. lia. }
  destruct (n <? 10)%N; [done | by apply IH].
Qed.

Lemma str_of_len_no_nul {A} (l : list A) :
  Py.index_of NUL (Py.encode (Py.str_of_len l)) = None.
Proof.
  apply index_of_absent. unfold Py.str_of_len, Py.str_of_N.
  eapply Forall_impl; [apply digits_bytes; constructor|].
  intros x Hx ->. simpl in Hx. lia.
Qed.

Lemma split1_at (u v : bytes) (c : byte) :
  Py.index_of c u = None → Py.split1 (u ++ c :: v) c = [u; v].
Proof.
  intros Hu. unfold Py.split1. rewrite index_of_first by done.
  rewrite take_app_length.
  replace (S (length u)) with (length u + 1)%nat by lia.
  by rewrite drop_app_add.
Qed.

Section ReadBack.
Context `{Zlib}.

Lemma read_after_write (store : bytes) (fs fs' : objdir) (s : str) :
  slot_agrees fs store →
  _write_object store fs = Ok (s, fs') →
  _read_object fs' s = Ok store.
Proof.
  unfold slot_agrees. rewrite write_object_cases.
  set (sha1 := SHA1.hexdigest store).
  unfold _read_object, _object_path.
  destruct (fs !! Py.str_take 2 sha1) as [[c|files]|] eqn:Hd; [done| |].
  - destruct (files !! Py.str_drop 2 sha1) as [c|] eqn:Hn.
    + intros Hc [= <- <-]. simpl. rewrite Hd, Hn.
      rewrite bool_decide_eq_true_2 by eauto. simpl. by rewrite Hd, Hn.
    + intros _ [= <- <-]. simpl. rewrite lookup_insert_eq, lookup_insert_eq.
      rewrite bool_decide_eq_true_2 by eauto. simpl.
      rewrite lookup_insert_eq, lookup_insert_eq. simpl.
      apply decompress_compress.
  - intros _ [= <- <-]. simpl. rewrite lookup_insert_eq, lookup_singleton_eq.
    rewrite bool_decide_eq_true_2 by eauto. simpl.
    rewrite lookup_insert_eq, lookup_singleton_eq. simpl.
    apply decompress_compress.
Qed.

Lemma write_succeeds (store : bytes) (fs : objdir) :
  slot_agrees fs store →
  ∃ fs', _write_object store fs = Ok (SHA1.hexdigest store, fs').
Proof.
  unfold slot_agrees. rewrite write_object_cases.
  destruct (fs !! _) as [[c|files]|]; [done| |eauto].
  destruct (files !! _); eauto.
Qed.

Lemma object_repr_split (kind : str) (body : bytes) :
  Py.index_of NUL (Py.encode (kind +:+ " ")) = None →
  Py.split1 (object_repr kind body) NUL =
    [Py.encode (kind +:+ " ") ++ Py.encode (Py.str_of_len body); body].
Proof.
  intros Hk. rewrite <-header_repr.
  rewrite (app_assoc (Py.encode (kind +:+ " "))).
  apply split1_at. apply index_of_absent, Forall_app. split.
  - clear -Hk. induction (Py.encode (kind +:+ " ")) as [|x l IH]; [done|].
    simpl in Hk. destruct (Byte.eqb x NUL) eqn:E; [done|].
    destruct (Py.index_of NUL l); [done|].
    constructor; [|by apply IH]. intros ->. by rewrite (byte_dec_lb eq_refl) in E.
  - pose proof (digits_bytes (S (N.to_nat (N.log2 (N.of_nat (length body)))))
                  (N.of_nat (length body)) "") as Hd.
    eapply Forall_impl; [apply Hd; constructor|].
    intros x Hx ->. simpl in Hx. lia.
Qed.
End ReadBack.

Lemma startswith_prefix (p rest : bytes) : Py.startswith (p ++ rest) p = true.
Proof.
  induction p as [|x p IH]; [by destruct rest|]. simpl.
  by rewrite (byte_dec_lb eq_refl), IH.
Qed.

Section RoundTrip.
Context `{Zlib}.

(** What a command that reads object [s] sees after [store], the
    representation of a [kind] object, was written. *)
Lemma read_header_body (kind : str) (body : bytes) (fs fs' : objdir) (s : str) :
  Py.index_of NUL (Py.encode (kind +:+ " ")) = None →
  slot_agrees fs (object_repr kind body) →
  _write_object (object_repr kind body) fs = Ok (s, fs') →
  bind (_read_object fs' s) (λ raw, Py.unpack2 (Py.split1 raw NUL)) =
    Ok (Py.encode (kind +:+ " ") ++ Py.encode (Py.str_of_len body), body).
Proof.
  intros Hk Hslot Hw. rewrite (read_after_write _ _ _ _ Hslot Hw).
  cbn [bind]. by rewrite object_repr_split.
Qed.

(** C3. Writing a blob and reading back the digest that the write
    returned gives a header of kind [blob] and the very bytes written, the
    empty sequence included, provided the fan-out location of the digest
    was free or already held this object. *)
Theorem blob_round_trip (data : bytes) (fs : objdir) :
  slot_agrees fs (object_repr "blob" data) →
  ∃ sha fs',
    _write_blob data fs = Ok (sha, fs')
    ∧ hash_object_w data fs = Ok (print sha, fs')
    ∧ bind (_read_object fs' sha) (λ raw, Py.unpack2 (Py.split1 raw NUL)) =
        Ok (Py.B "blob " ++ Py.encode (Py.str_of_len data), data)
    ∧ cat_file_p fs' sha = Returned data.
Proof.
  intros Hslot.
  destruct (write_succeeds _ _ Hslot) as (fs' & Hw).
  exists (SHA1.hexdigest (object_repr "blob" data)), fs'.
  pose proof (read_header_body "blob" data fs fs' _ eq_refl Hslot Hw) as Hread.
  split; [by rewrite write_blob_repr|]. split; [|split; [done|]].
  - unfold hash_object_w. fold (_write_blob data fs).
    by rewrite write_blob_repr, Hw.
  - unfold cat_file_p.
    destruct (_read_object fs' _) as [raw|]; [|done].
    cbn [bind] in Hread. rewrite Hread.
    change (Py.encode ("blob" +:+ " ")) with (Py.B "blob ").
    by rewrite startswith_prefix.
Qed.

(** C9 fails on the code.  On the 24 bytes of [looping_body] (a null byte
    and no space) the loop of [ls_tree] never ends: [find] answers [-1] for
    the space, the index starts again from 0, and every turn from the
    second on begins and ends at index 21, below the length 24.  So
    [ls-tree] on a stored tree object with this body never returns. *)
Theorem ls_tree_never_ends (fuel : nat) (name_only : bool) :
  scan fuel Sample.looping_body 0 [] = None
  ∧ ∃ sha fs,
      _write_object (object_repr "tree" Sample.looping_body) ∅ = Ok (sha, fs)
      ∧ ls_tree fuel fs sha name_only = None.
Proof.
  split; [apply scan_never_ends|].
  assert (slot_agrees ∅ (object_repr "tree" Sample.looping_body)) as Hslot
    by exact I.
  destruct (write_succeeds _ _ Hslot) as (fs & Hw).
  eexists _, fs. split; [done|].
  pose proof (read_header_body "tree" _ ∅ fs _ eq_refl Hslot Hw) as Hread.
  unfold ls_tree. destruct (_read_object fs _) as [raw|]; [|done].
  cbn [bind] in Hread. rewrite Hread.
  change (Py.encode ("tree" +:+ " ")) with (Py.B "tree ").
  rewrite startswith_prefix. cbn [negb]. by rewrite scan_never_ends.
Qed.
End RoundTrip.

Lemma blob_round_trip_witness :
  ∃ sha fs',
    @_write_blob Framed.zlib [] ∅ = Ok (sha, fs')
    ∧ @hash_object_w Framed.zlib [] ∅ = Ok (print sha, fs')
    ∧ bind (@_read_object Framed.zlib fs' sha)
           (λ raw, Py.unpack2 (Py.split1 raw NUL)) =
        Ok (Py.B "blob " ++ Py.encode (Py.str_of_len (@nil byte)), [])
    ∧ @cat_file_p Framed.zlib fs' sha = Returned [].
Proof. exact (@blob_round_trip Framed.zlib [] ∅ I). Defined.

Lemma slot_agrees_empty `{Zlib} (store : bytes) : slot_agrees ∅ store.
Proof. unfold slot_agrees. by rewrite lookup_empty. Qed.

(** ** The commit object *)

Section CommitObject.
Context `{Zlib}.

End CommitObject.


(** ** Building a tree from a directory *)

Lemma wnode_induction (P : wnode → Prop) :
  (∀ st_mode data, P (WFile st_mode data)) →
  (∀ children, Forall (λ c, P c.2) children → P (WDir children)) →
  ∀ n, P n.
Proof.
  intros Hfile Hdir. fix IH 1. intros [st_mode data|children].
  - apply Hfile.
  - apply Hdir. induction children as [|[name c] rest IHrest];
      constructor; [apply IH | apply IHrest].
Qed.

Lemma StronglySorted_filter {A} (R : relation A) (P : A → Prop)
    `{∀ x, Decision (P x)} (l : list A) :
  StronglySorted R l → StronglySorted R (filter P l).
Proof.
  induction 1 as [|x l Hl IH Hx]; [constructor|].
  rewrite filter_cons. destruct (decide (P x)); [|done].
  constructor; [done|]. apply Forall_forall.
  intros y [_ Hy]%list_elem_of_filter. by apply (proj1 (Forall_forall _ _) Hx).
Qed.

#[local] Instance by_name_trans {A} : Transitive (@by_name A).
Proof. intros x y z. unfold by_name. apply transitivity. Qed.

#[local] Instance by_name_total {A} : Total (@by_name A).
Proof. intros x y. unfold by_name. apply total, _. Qed.

Lemma sorted_by_name_names {A} (l : list (str * A)) :
  StronglySorted String.le (sorted_by_name l).*1
  ∧ (sorted_by_name l).*1 ≡ₚ l.*1.
Proof.
  split.
  - apply (StronglySorted_fmap fst by_name); [done|].
    apply StronglySorted_merge_sort; apply _.
  - apply fmap_Permutation, merge_sort_Permutation.
Qed.

Section WriteTree.
Context `{Zlib}.

Lemma write_object_returns (store : bytes) : returns_digest (_write_object store).
Proof.
  intros fs Hfs. rewrite write_object_cases.
  pose proof (digest_prefix_length _ (hexdigest_is_digest store)) as Hlen.
  set (d := Py.str_take 2 (SHA1.hexdigest store)) in *.
  assert (∀ node, buckets_ok (<[d := Dir node]> fs)) as Hins.
  { intros node name data. destruct (decide (name = d)) as [->|Hne].
    - by rewrite lookup_insert_eq.
    - rewrite lookup_insert_ne by done. apply Hfs. }
  destruct (fs !! d) as [[c|files]|] eqn:Hd.
  - by destruct (Hfs d c Hd).
  - destruct (files !! _); eexists _, _;
      (split; [done|]; split; [apply hexdigest_is_digest | done]).
  - eexists _, _. split; [done|]. split; [apply hexdigest_is_digest | done].
Qed.

Lemma write_blob_returns (data : bytes) : returns_digest (_write_blob data).
Proof. apply write_object_returns. Qed.

Lemma encode_tree_total (entries : list entry) :
  Forall (λ e, is_digest e.2 = true) entries →
  ∃ body, encode_tree entries = Ok body.
Proof.
  induction 1 as [|[[name mode] sha] entries Hd _ [body Hbody]]; [by exists []|].
  destruct (fromhex_digest sha Hd) as (raw & Hraw & _).
  eexists. cbn [encode_tree encode_entry]. by rewrite Hraw, Hbody.
Qed.

Lemma write_tree_object_returns (entries : list entry) :
  Forall (λ e, is_digest e.2 = true) entries →
  returns_digest (write_tree_object entries).
Proof.
  intros [body Hbody]%encode_tree_total fs Hfs.
  unfold write_tree_object. rewrite Hbody. by apply write_object_returns.
Qed.

(** The loop: what it leaves in [entries], and that it goes through when
    each of its calls does. *)
Lemma collect_spec (cs : list child) (acc : list entry) (fs : objdir) :
  Forall (λ c, returns_digest c.2.2) cs →
  Forall (λ e, is_digest e.2 = true) acc →
  buckets_ok fs →
  ∃ entries fs',
    collect cs acc fs = Ok (entries, fs')
    ∧ names entries = names acc ++ filter (λ n, n ≠ ".git") cs.*1
    ∧ Forall (λ e, is_digest e.2 = true) entries
    ∧ buckets_ok fs'.
Proof.
  intros Hcs. revert acc fs.
  induction Hcs as [|[name [mode write]] cs Hw _ IH]; intros acc fs Hacc Hfs.
  - exists acc, fs. by rewrite app_nil_r.
  - cbn [collect fmap list_fmap fst]. rewrite filter_cons.
    case_bool_decide as Hgit.
    + rewrite decide_False by (by intros ?). by apply IH.
    + rewrite decide_True by done.
      destruct (Hw fs Hfs) as (sha & fs1 & Hwrite & Hsha & Hfs1).
      cbn [snd] in Hwrite. rewrite Hwrite. cbn [bind].
      destruct (IH (acc ++ [(name, mode, sha)]) fs1) as (entries & fs' & -> & Hn & He & Hf);
        [apply Forall_app; split; [done | by constructor] | done |].
      exists entries, fs'. split; [done|]. split; [|done].
      rewrite Hn. unfold names. rewrite fmap_app, <-app_assoc. done.
Qed.

Lemma write_tree_for_dir_returns (n : wnode) :
  returns_digest
    match n with
    | WDir _ => _write_tree_for_dir n
    | WFile _ data => _write_blob data
    end.
Proof.
  induction n as [st_mode data|children IH] using wnode_induction.
  - apply write_blob_returns.
  - intros fs Hfs. cbn [_write_tree_for_dir].
    destruct (collect_spec (sorted_by_name (prepare _write_tree_for_dir children))
                [] fs) as (entries & fs1 & -> & _ & He & Hfs1); [|done|done|].
    + eapply Permutation_Forall; [symmetry; apply merge_sort_Permutation|].
      unfold prepare. apply Forall_fmap.
      eapply Forall_impl; [apply IH|]. by intros [name c].
    + cbn [bind]. by apply write_tree_object_returns.
Qed.

End WriteTree.

Lemma buckets_ok_empty : buckets_ok ∅.
Proof. intros name data Hl. by rewrite lookup_empty in Hl. Qed.

Example sample_tree_entries :
  match @dir_entries Framed.zlib Sample.tree ∅ with
  | Ok (entries, _) =>
      entries =
        [("a", "40000", "ccac557474f4653118dbc81c98eb249d85ab29b4");
         ("b.txt", "100644", "32f95c0d1244a78b2be1bab8de17906fabb2c4a8")]
  | Raise _ => False
  end.
Proof. vm_compute. reflexivity. Qed.

(** * Further properties of the code *)

Example main_examples :
  main More.commit_argv =
    CommitTree Sample.hello_sha (Some Sample.hello_sha) "first -p commit"
  ∧ main ["git.py"; "ls-tree"; "--name-only"] = LsTree "--name-only" false
  ∧ main ["git.py"; "commit-tree"; "t"; "-m"] = CommitTree "t" None ""
  ∧ main ["git.py"; "commit-tree"; "t"; "-p"; "a"; "-p"; "b"; "-m"; "x"] = Usage
  ∧ main ["git.py"; "clone"; "url"] = Usage
  ∧ main ["git.py"] = Usage.
Proof. by vm_compute. Qed.

(** ** Object store: errors, layout, immutability *)

Lemma substring_all (s : string) : substring 0 (String.length s) s = s.
Proof. induction s as [|c s IH]; simpl; [done | by f_equal]. Qed.

Lemma digest_split (s : str) :
  is_digest s = true →
  Py.str_take 2 s +:+ Py.str_drop 2 s = s
  ∧ String.length (Py.str_take 2 s) = 2%nat
  ∧ String.length (Py.str_drop 2 s) = 38%nat.
Proof.
  unfold is_digest. intros [Hl _]%andb_prop. apply Nat.eqb_eq in Hl.
  destruct s as [|a [|b s]]; simpl in Hl; try lia.
  unfold Py.str_take, Py.str_drop.
  cbn [String.length Nat.sub substring].
  rewrite Nat.sub_0_r, substring_all.
  assert (substring 0 0 s = "") as -> by (by destruct s).
  repeat split. simpl. lia.
Qed.

#[local] Instance path_eq_dec : EqDecision path.
Proof. solve_decision. Defined.

Section StoreExtras.
Context `{Zlib}.

(** Over an object directory that exists and can be written, the one
    failure of a write that is left is a regular file under the first two
    characters of the digest, where the bucket directory is to be made;
    the exception is then [FileExistsError].  Failures of the file system
    itself ([.git] or [.git/objects] not being a directory, a write that
    is refused) are not states of [objdir]. *)
Lemma write_object_cases_of_failure (store : bytes) (fs : objdir) :
  (_write_object store fs = Raise FileExistsError
   ↔ ∃ data, fs !! Py.str_take 2 (SHA1.hexdigest store) = Some (File data))
  ∧ (∀ e, _write_object store fs = Raise e → e = FileExistsError)
  ∧ ((∀ data, fs !! Py.str_take 2 (SHA1.hexdigest store) ≠ Some (File data))
     → ∃ fs', _write_object store fs = Ok (SHA1.hexdigest store, fs')).
Proof.
  rewrite write_object_cases.
  destruct (fs !! Py.str_take 2 (SHA1.hexdigest store)) as [[c|files]|].
  - split; [split; eauto|]. split; [congruence|]. intros Hno. by destruct (Hno c).
  - destruct (files !! _).
    + split; [split; [done | by intros [? ?]]|]. split; [done | eauto].
    + split; [split; [done | by intros [? ?]]|]. split; [done | eauto].
  - split; [split; [done | by intros [? ?]]|]. split; [done | eauto].
Qed.

(** What a write leaves alone: every path except the fan-out path of the
    digest and the bucket directory itself. *)
Lemma write_object_frame (store : bytes) (fs fs' : objdir) (s : str) (p : path) :
  _write_object store fs = Ok (s, fs') →
  p ≠ Nested (Py.str_take 2 s) (Py.str_drop 2 s) →
  p ≠ Top (Py.str_take 2 s) →
  path_exists fs' p = path_exists fs p ∧ read_bytes fs' p = read_bytes fs p.
Proof.
  intros Hw. destruct (write_object_inv _ _ _ _ Hw) as [-> _].
  revert Hw. rewrite write_object_cases.
  set (d := Py.str_take 2 (SHA1.hexdigest store)).
  set (n := Py.str_drop 2 (SHA1.hexdigest store)).
  intros Hw Hp1 Hp2.
  assert (∀ files0 files1,
            (fs !! d = Some (Dir files0) ∨ (fs !! d = None ∧ files0 = ∅)) →
            files1 = <[n := compress store]> files0 →
            fs' = <[d := Dir files1]> fs →
            path_exists fs' p = path_exists fs p
            ∧ read_bytes fs' p = read_bytes fs p) as Hins.
  { intros files0 files1 Hd -> ->. destruct p as [name|dir name]; simpl.
    - rewrite lookup_insert_ne by congruence. done.
    - destruct (decide (dir = d)) as [->|Hne].
      + assert (name ≠ n) as Hn by congruence.
        rewrite lookup_insert_eq, lookup_insert_ne by done.
        destruct Hd as [-> | [-> ->]]; [done|]. by rewrite lookup_empty.
      + by rewrite lookup_insert_ne. }
  destruct (fs !! d) as [[c|files]|] eqn:Hd; [done| |].
  - destruct (files !! n) eqn:Hn.
    + by injection Hw as <-.
    + injection Hw as <-. eapply Hins; eauto.
  - injection Hw as <-. eapply (Hins ∅); eauto.
Qed.

(** X2. Objects are written once: whatever could be read at any path
    before a write reads the same afterwards. *)
Theorem write_keeps_files (store : bytes) (fs fs' : objdir) (s : str) :
  _write_object store fs = Ok (s, fs') →
  ∀ p data, read_bytes fs p = Ok data → read_bytes fs' p = Ok data.
Proof.
  intros Hw p data Hr.
  destruct (decide (p = Nested (Py.str_take 2 s) (Py.str_drop 2 s))) as [->|Hp1].
  - destruct (write_object_inv _ _ _ _ Hw) as [-> _].
    rewrite write_object_skip in Hw; [by injection Hw as <-|].
    simpl in *. destruct (fs !! _) as [[|files]|]; try done.
    destruct (files !! _); [|done]. by apply bool_decide_eq_true_2.
  - destruct (decide (p = Top (Py.str_take 2 s))) as [->|Hp2].
    + destruct (write_object_inv _ _ _ _ Hw) as [-> _].
      simpl in Hr. destruct (fs !! _) as [[c|]|] eqn:Hd; try done.
      by rewrite (write_object_blocked _ _ c) in Hw.
    + destruct (write_object_frame _ _ _ _ p Hw Hp1 Hp2) as [_ ->]. done.
Qed.

(** X3. A write does not touch what is read for any other digest. *)
Theorem write_leaves_other_objects (store : bytes) (fs fs' : objdir) (s x : str) :
  _write_object store fs = Ok (s, fs') →
  is_digest x = true → x ≠ s →
  _object_path fs' x = _object_path fs x
  ∧ _read_object fs' x = _read_object fs x.
Proof.
  intros Hw Hx Hne.
  destruct (write_object_inv _ _ _ _ Hw) as [Hs _].
  assert (is_digest s = true) as Hsd by (rewrite Hs; apply hexdigest_is_digest).
  destruct (digest_split x Hx) as (Hxs & Hx2 & _).
  destruct (digest_split s Hsd) as (Hss & Hs2 & _).
  assert (Nested (Py.str_take 2 x) (Py.str_drop 2 x)
          ≠ Nested (Py.str_take 2 s) (Py.str_drop 2 s)) as Hp1.
  { intros [= E1 E2]. apply Hne. by rewrite <-Hxs, <-Hss, E1, E2. }
  assert (Nested (Py.str_take 2 x) (Py.str_drop 2 x) ≠ Top (Py.str_take 2 s))
    as Hp2 by done.
  assert (Top x ≠ Nested (Py.str_take 2 s) (Py.str_drop 2 s)) as Hq1 by done.
  assert (Top x ≠ Top (Py.str_take 2 s)) as Hq2.
  { intros [= E]. rewrite E in Hx. unfold is_digest in Hx.
    apply andb_prop in Hx as [Hl _]. apply Nat.eqb_eq in Hl. lia. }
  destruct (write_object_frame _ _ _ _ _ Hw Hp1 Hp2) as [He1 Hr1].
  destruct (write_object_frame _ _ _ _ _ Hw Hq1 Hq2) as [He2 Hr2].
  split.
  - unfold _object_path. by rewrite He1, He2.
  - unfold _read_object, _object_path. rewrite He1, He2.
    destruct (path_exists fs (Nested _ _)); [by rewrite Hr1|].
    destruct (path_exists fs (Top x)); [by rewrite Hr2 | done].
Qed.
End StoreExtras.

(** X4. After a write the object is found at its fan-out path, whether
    or not a flat copy exists: a bucket named by the first two characters
    of the digest and a file named by the other 38. *)
Theorem written_object_found `{Zlib} (store : bytes) (fs fs' : objdir) (s : str) :
  _write_object store fs = Ok (s, fs') →
  _object_path fs' s = Some (Nested (Py.str_take 2 s) (Py.str_drop 2 s))
  ∧ Py.str_take 2 s +:+ Py.str_drop 2 s = s
  ∧ String.length (Py.str_take 2 s) = 2%nat
  ∧ String.length (Py.str_drop 2 s) = 38%nat.
Proof.
  intros Hw. destruct (write_object_inv _ _ _ _ Hw) as [Hs He].
  split; [unfold _object_path; by rewrite He|].
  apply digest_split. rewrite Hs. apply hexdigest_is_digest.
Qed.

Lemma write_hello_flat :
  @_write_object Framed.zlib Sample.hello_store Sample.flat_only =
    Ok (Sample.hello_sha, Sample.both_layouts).
Proof. rewrite write_object_fresh; rewrite hello_digest; reflexivity. Qed.

Lemma write_keeps_files_witness :
  read_bytes Sample.both_layouts (Top Sample.hello_sha) =
    Ok (Framed.pack Sample.hello_store).
Proof.
  refine (@write_keeps_files Framed.zlib _ _ _ _ write_hello_flat
            (Top Sample.hello_sha) _ _).
  vm_compute. reflexivity.
Defined.

Lemma write_leaves_other_objects_witness :
  @_read_object Framed.zlib Sample.both_layouts
    "da39a3ee5e6b4b0d3255bfef95601890afd80709" =
  @_read_object Framed.zlib Sample.flat_only
    "da39a3ee5e6b4b0d3255bfef95601890afd80709".
Proof.
  refine (proj2 (@write_leaves_other_objects Framed.zlib _ _ _ _
                   "da39a3ee5e6b4b0d3255bfef95601890afd80709"
                   write_hello_flat _ _)).
  - reflexivity.
  - discriminate.
Defined.

Lemma written_object_found_witness :
  _object_path Sample.both_layouts Sample.hello_sha =
    Some (Nested (Py.str_take 2 Sample.hello_sha) (Py.str_drop 2 Sample.hello_sha)).
Proof.
  exact (proj1 (@written_object_found Framed.zlib _ _ _ _ write_hello_flat)).
Defined.

(** ** Reading objects: what is checked and what is not *)

Lemma index_of_app_absent (c : byte) (u v : bytes) :
  Py.index_of c u = None → Py.index_of c v = None →
  Py.index_of c (u ++ v) = None.
Proof.
  intros Hu Hv. induction u as [|x u IH]; [done|]. simpl in *.
  destruct (Byte.eqb x c); [done|].
  destruct (Py.index_of c u); [done|]. by rewrite IH.
Qed.

Lemma startswith_app (a r p : bytes) :
  (length p ≤ length a)%nat → Py.startswith (a ++ r) p = Py.startswith a p.
Proof.
  revert a. induction p as [|c p IH]; intros a Hl.
  - by destruct a, r.
  - destruct a as [|x a]; simpl in Hl; [lia|]. simpl.
    rewrite IH by lia. done.
Qed.

Section ReadExtras.
Context `{Zlib}.

(** X5. [cat-file -p] prints what follows the first null byte of a blob
    object and never compares it with the length the header declares. *)
Theorem cat_file_ignores_length (fs : objdir) (sha1 : str) (junk body : bytes) :
  _read_object fs sha1 = Ok (Py.B "blob " ++ junk ++ NUL :: body) →
  Py.index_of NUL junk = None →
  cat_file_p fs sha1 = Returned body.
Proof.
  intros Hr Hj. unfold cat_file_p. rewrite Hr.
  rewrite (app_assoc (Py.B "blob ")), split1_at
    by (by apply index_of_app_absent).
  cbn [Py.unpack2]. by rewrite startswith_prefix.
Qed.

(** X6. The kind in the header is checked by both readers: once an
    object of kind [blob], [tree] or [commit] is written, [cat-file -p]
    refuses everything but a blob and [ls-tree] everything but a tree, with
    status 1 and nothing on standard output.  ([_write_blob],
    [write_tree_object] and [commit_tree] write [object_repr] of their
    kind.) *)
Theorem kind_is_checked (kind : str) (body : bytes) (fs fs' : objdir) (s : str)
    (fuel : nat) (name_only : bool) :
  kind ∈ ["blob"; "tree"; "commit"] →
  slot_agrees fs (object_repr kind body) →
  _write_object (object_repr kind body) fs = Ok (s, fs') →
  (kind ≠ "blob" →
     cat_file_p fs' s = Exited 1 (print "fatal: not a blob object"))
  ∧ (kind ≠ "tree" →
       ls_tree fuel fs' s name_only =
         Some (Exited 1 (print "fatal: not a tree object"))).
Proof.
  intros Hk Hslot Hw.
  assert (Py.index_of NUL (Py.encode (kind +:+ " ")) = None
          ∧ (5 ≤ length (Py.encode (kind +:+ " ")))%nat
          ∧ (kind ≠ "blob" →
               Py.startswith (Py.encode (kind +:+ " ")) (Py.B "blob ") = false)
          ∧ (kind ≠ "tree" →
               Py.startswith (Py.encode (kind +:+ " ")) (Py.B "tree ") = false))
    as (Hnul & Hlen & Hblob & Htree).
  { repeat (apply elem_of_cons in Hk as [->|Hk]);
      [| | |by apply elem_of_nil in Hk];
      (split; [reflexivity|]; split; [simpl; lia|]; split; by intros ?). }
  pose proof (read_header_body kind body fs fs' s Hnul Hslot Hw) as Hread.
  destruct (_read_object fs' s) as [raw|] eqn:Hr; [|done]. cbn [bind] in Hread.
  split; intros Hne.
  - unfold cat_file_p. rewrite Hr, Hread.
    rewrite startswith_app by done. by rewrite Hblob.
  - unfold ls_tree. rewrite Hr, Hread.
    rewrite startswith_app by done. by rewrite Htree.
Qed.

(** A stored object without any null byte is not reported as a fatal
    error: the unpacking of [raw.split] raises [ValueError], which neither
    reader catches. *)
Lemma object_without_null (fs : objdir) (sha1 : str) (raw : bytes)
    (fuel : nat) (name_only : bool) :
  _read_object fs sha1 = Ok raw →
  Py.index_of NUL raw = None →
  cat_file_p fs sha1 = Uncaught ValueError
  ∧ ls_tree fuel fs sha1 name_only = Some (Uncaught ValueError).
Proof.
  intros Hr Hn. unfold cat_file_p, ls_tree, Py.split1. by rewrite Hr, Hn.
Qed.

(** X7. A commit that was written reads back as a header of kind
    [commit] with the byte length of the text, and the text itself. *)
Theorem commit_round_trip (tree_sha : str) (parent_sha : option str)
    (timestamp : Z) (message : str) (fs fs' : objdir) (out : bytes) :
  let content := Py.encode (commit_content tree_sha parent_sha timestamp message) in
  slot_agrees fs (object_repr "commit" content) →
  commit_tree tree_sha parent_sha timestamp message fs = Ok (out, fs') →
  ∃ sha1,
    out = print sha1
    ∧ is_digest sha1 = true
    ∧ bind (_read_object fs' sha1) (λ raw, Py.unpack2 (Py.split1 raw NUL)) =
        Ok (Py.B "commit " ++ Py.encode (Py.str_of_len content), content).
Proof.
  intros content Hslot. rewrite commit_tree_repr. fold content.
  destruct (_write_object _ fs) as [[sha1 fs1]|] eqn:Hw; [|done].
  cbn [bind]. intros [= <- <-]. exists sha1. split; [done|]. split.
  - destruct (write_object_inv _ _ _ _ Hw) as [-> _]. apply hexdigest_is_digest.
  - by apply (read_header_body "commit" content fs fs1 sha1).
Qed.
End ReadExtras.

Lemma cat_file_ignores_length_witness :
  @cat_file_p Framed.zlib More.wrong_length_dir "abcdef" = Returned (Py.B "hi").
Proof.
  refine (@cat_file_ignores_length Framed.zlib More.wrong_length_dir "abcdef"
            (Py.B "999") (Py.B "hi") _ _).
  - vm_compute. reflexivity.
  - reflexivity.
Defined.

Lemma kind_is_checked_witness :
  let store := object_repr "tree" [] in
  let s := SHA1.hexdigest store in
  @cat_file_p Framed.zlib
    (<[Py.str_take 2 s := Dir {[Py.str_drop 2 s := Framed.pack store]}]> ∅) s =
  Exited 1 (print "fatal: not a blob object").
Proof.
  refine (proj1 (@kind_is_checked Framed.zlib "tree" [] ∅ _ _ 0 false _ I
                   (@write_object_fresh Framed.zlib _ ∅ eq_refl)) _).
  - repeat constructor.
  - discriminate.
Defined.

Lemma commit_round_trip_witness :
  let content := Py.encode (commit_content Sample.hello_sha None 0 "init") in
  let store := object_repr "commit" content in
  let s := SHA1.hexdigest store in
  let fs' : objdir :=
    <[Py.str_take 2 s := Dir {[Py.str_drop 2 s := Framed.pack store]}]> ∅ in
  ∃ sha1,
    print s = print sha1
    ∧ is_digest sha1 = true
    ∧ bind (@_read_object Framed.zlib fs' sha1)
           (λ raw, Py.unpack2 (Py.split1 raw NUL)) =
        Ok (Py.B "commit " ++ Py.encode (Py.str_of_len content), content).
Proof.
  intros content store s fs'.
  refine (@commit_round_trip Framed.zlib Sample.hello_sha None 0 "init" ∅ fs'
            (print s) (slot_agrees_empty _) _).
  rewrite commit_tree_repr.
  rewrite write_object_fresh by apply lookup_empty.
  reflexivity.
Defined.

(** ** Trees: from [write-tree] to [ls-tree] *)

Section TreeExtras.
Context `{Zlib}.

(** What [ls-tree] prints once the loop has gone through the body of a
    tree object that was written. *)
Lemma ls_tree_of_body (entries es : list entry) (body : bytes) (fs fs' : objdir)
    (s : str) (name_only : bool) (fuel : nat) :
  encode_tree entries = Ok body →
  slot_agrees fs (object_repr "tree" body) →
  write_tree_object entries fs = Ok (s, fs') →
  scan fuel body 0 [] = Some (Ok es) →
  ls_tree fuel fs' s name_only =
    Some (Returned (print (Py.join NL (line name_only <$> es)))).
Proof.
  intros Hbody Hslot Hw Hscan.
  rewrite write_tree_object_repr, Hbody in Hw. cbn [bind] in Hw.
  pose proof (read_header_body "tree" body fs fs' s eq_refl Hslot Hw) as Hread.
  unfold ls_tree. destruct (_read_object fs' s) as [raw|]; [|done].
  cbn [bind] in Hread. rewrite Hread.
  change (Py.encode ("tree" +:+ " ")) with (Py.B "tree ").
  rewrite startswith_prefix. cbn [negb]. by rewrite Hscan.
Qed.

(** X8. [ls-tree] on a tree that was written prints one line per entry,
    in the order of the entries: the names alone with [--name-only], and
    otherwise mode, kind, digest, a tab and the name. *)
Theorem ls_tree_after_write (entries : list entry) (fs fs' : objdir) (s : str)
    (name_only : bool) (fuel : nat) :
  Forall entry_ok entries →
  (∀ body, encode_tree entries = Ok body →
     slot_agrees fs (object_repr "tree" body)) →
  write_tree_object entries fs = Ok (s, fs') →
  (length entries ≤ fuel)%nat →
  ls_tree fuel fs' s name_only =
    Some (Returned (print (Py.join NL (line name_only <$> entries)))).
Proof.
  intros Hok Hslot Hw Hfuel.
  destruct (scan_entries entries Hok) as (body & Hbody & Hscan).
  destruct (Hscan [] []) as [Hfull _].
  apply (ls_tree_of_body entries entries body fs); [done | by apply Hslot | done |].
  by apply (scan_more_fuel (length entries)).
Qed.

(** What the loop puts in [entries]: for each element, a child of that
    name, not [.git], with its mode and a digest its call returned. *)
Lemma collect_elem (cs : list child) (acc entries : list entry) (fs fs' : objdir) :
  collect cs acc fs = Ok (entries, fs') →
  ∀ name mode sha, (name, mode, sha) ∈ entries →
    (name, mode, sha) ∈ acc
    ∨ ∃ write fs1 fs2,
        (name, (mode, write)) ∈ cs ∧ name ≠ ".git" ∧ write fs1 = Ok (sha, fs2).
Proof.
  revert acc fs. induction cs as [|[n [m w]] cs IH]; intros acc fs Hc name mode sha He.
  - injection Hc as <- _. by left.
  - cbn [collect] in Hc. case_bool_decide as Hgit.
    + destruct (IH _ _ Hc _ _ _ He) as [?|(write & fs1 & fs2 & Hin & ? & ?)];
        [by left|]. right. exists write, fs1, fs2. split; [by right | done].
    + destruct (w fs) as [[sha' fs1]|] eqn:Hw; [|done]. cbn [bind] in Hc.
      destruct (IH _ _ Hc _ _ _ He) as [Hin|(write & fs2 & fs3 & Hin & ? & ?)].
      * apply elem_of_app in Hin as [?|Hin]; [by left|].
        apply list_elem_of_singleton in Hin as [= -> -> ->].
        right. exists w, fs, fs1. split; [by left | done].
      * right. exists write, fs2, fs3. split; [by right | done].
Qed.

(** X9. Every entry of a tree stands for a direct child other than
    [.git]: it carries the child's name, the mode [_file_mode] gives it,
    and for a file the digest of the blob of its content, for a directory
    a digest that [_write_tree_for_dir] returned for it. *)
Theorem entries_describe_children (children : list (str * wnode))
    (fs fs' : objdir) (entries : list entry) :
  dir_entries children fs = Ok (entries, fs') →
  ∀ name mode sha, (name, mode, sha) ∈ entries →
    ∃ c, (name, c) ∈ children
         ∧ name ≠ ".git"
         ∧ mode = _file_mode c
         ∧ match c with
           | WFile _ data => sha = SHA1.hexdigest (object_repr "blob" data)
           | WDir _ => ∃ fs1 fs2, _write_tree_for_dir c fs1 = Ok (sha, fs2)
           end.
Proof.
  intros Hd name mode sha He. unfold dir_entries in Hd.
  destruct (collect_elem _ _ _ _ _ Hd _ _ _ He)
    as [Hin|(write & fs1 & fs2 & Hin & Hgit & Hw)]; [by apply elem_of_nil in Hin|].
  unfold sorted_by_name in Hin. rewrite merge_sort_Permutation in Hin.
  unfold prepare in Hin. apply list_elem_of_fmap in Hin as ([n c] & Heq & Hc).
  injection Heq as -> -> ->. exists c. split; [done|]. split; [done|].
  split; [done|]. destruct c as [st_mode data|ch].
  - rewrite write_blob_repr in Hw. by apply write_object_inv in Hw as [-> _].
  - eauto.
Qed.

Lemma collect_state_free (cs : list child) (acc : list entry)
    (fs1 fs2 fs1' fs2' : objdir) (e1 e2 : list entry) :
  Forall (λ c, state_free c.2.2) cs →
  collect cs acc fs1 = Ok (e1, fs1') → collect cs acc fs2 = Ok (e2, fs2') →
  e1 = e2.
Proof.
  intros Hcs. revert acc fs1 fs2.
  induction Hcs as [|[n [m w]] cs Hw _ IH]; intros acc fs1 fs2 H1 H2.
  - by injection H1 as <- _; injection H2 as <- _.
  - cbn [collect] in H1, H2. case_bool_decide; [by eapply IH|].
    destruct (w fs1) as [[s1 g1]|] eqn:E1; [|done].
    destruct (w fs2) as [[s2 g2]|] eqn:E2; [|done].
    cbn [bind] in H1, H2. rewrite (Hw _ _ _ _ _ _ E1 E2) in H1. by eapply IH.
Qed.

Lemma writer_state_free (c : wnode) : state_free (writer c).
Proof.
  induction c as [st_mode data|children IH] using wnode_induction.
  - intros fs1 fs2 s1 s2 g1 g2 H1 H2. simpl in H1, H2.
    rewrite write_blob_repr in H1, H2.
    apply write_object_inv in H1 as [-> _]. by apply write_object_inv in H2 as [-> _].
  - intros fs1 fs2 s1 s2 g1 g2. cbn [writer _write_tree_for_dir].
    destruct (collect _ [] fs1) as [[e1 h1]|] eqn:E1; [|done].
    destruct (collect _ [] fs2) as [[e2 h2]|] eqn:E2; [|done].
    cbn [bind]. rewrite !write_tree_object_repr.
    assert (e1 = e2) as <-.
    { eapply collect_state_free; [|done..].
      eapply Permutation_Forall; [symmetry; apply merge_sort_Permutation|].
      unfold prepare. apply Forall_fmap.
      eapply Forall_impl; [apply IH|]. by intros [name c]. }
    destruct (encode_tree e1) as [body|]; [|done]. cbn [bind].
    intros [-> _]%write_object_inv [-> _]%write_object_inv. done.
Qed.

(** X10. The digest [_write_tree_for_dir] returns for a directory is
    a function of the directory alone: run in two different object
    directories, it returns the same digest. *)
Theorem tree_digest_state_free (dir_path : wnode) (fs1 fs2 fs1' fs2' : objdir)
    (s1 s2 : str) :
  _write_tree_for_dir dir_path fs1 = Ok (s1, fs1') →
  _write_tree_for_dir dir_path fs2 = Ok (s2, fs2') →
  s1 = s2.
Proof.
  destruct dir_path as [st_mode data|children]; [done|].
  apply (writer_state_free (WDir children)).
Qed.
End TreeExtras.

Lemma fst_unique {A} (l : list (str * A)) (k : str) (v1 v2 : A) :
  NoDup l.*1 → (k, v1) ∈ l → (k, v2) ∈ l → v1 = v2.
Proof.
  induction l as [|[k' v'] l IH]; intros Hnd H1 H2; [by apply elem_of_nil in H1|].
  cbn [fmap list_fmap fst] in Hnd. apply NoDup_cons in Hnd as [Hk Hnd].
  apply elem_of_cons in H1 as [E1|H1]; apply elem_of_cons in H2 as [E2|H2].
  - congruence.
  - injection E1 as -> ->. destruct Hk. apply list_elem_of_fmap. by exists (k', v2).
  - injection E2 as -> ->. destruct Hk. apply list_elem_of_fmap. by exists (k', v1).
  - by apply IH.
Qed.

(** Two lists sorted by name that hold the same elements, under names
    that are all different, are the same list. *)
Lemma sorted_unique {A} (l1 l2 : list (str * A)) :
  StronglySorted by_name l1 → StronglySorted by_name l2 →
  l1 ≡ₚ l2 → NoDup l1.*1 → l1 = l2.
Proof.
  intros H1 H2 Hp Hnd. apply (StronglySorted_unique_strong by_name); [|done..].
  intros [k1 v1] [k2 v2] Hx1 Hx2 Hle1 Hle2. unfold by_name in Hle1, Hle2.
  cbn [fst] in Hle1, Hle2.
  assert (k1 = k2) as -> by (by apply (anti_symm String.le)).
  rewrite <-Hp in Hx2. by rewrite (fst_unique l1 k2 v1 v2).
Qed.

Lemma sorted_by_name_perm {A} (l1 l2 : list (str * A)) :
  l1 ≡ₚ l2 → NoDup l1.*1 → sorted_by_name l1 = sorted_by_name l2.
Proof.
  intros Hp Hnd. apply sorted_unique.
  - apply StronglySorted_merge_sort; apply _.
  - apply StronglySorted_merge_sort; apply _.
  - unfold sorted_by_name. by rewrite !merge_sort_Permutation.
  - unfold sorted_by_name. by rewrite merge_sort_Permutation.
Qed.

Section TreeOrder.
Context `{Zlib}.

Lemma prepare_names (children : list (str * wnode)) :
  (prepare _write_tree_for_dir children).*1 = children.*1.
Proof.
  unfold prepare. rewrite <-list_fmap_compose.
  apply list_fmap_ext. by intros i [name c] _.
Qed.

(** X11. The order in which [iterdir] lists the children does not
    matter: two listings of the same children, all of different names,
    give the same digest and leave the same object directory. *)
Theorem listing_order_irrelevant (children children' : list (str * wnode))
    (fs : objdir) :
  children ≡ₚ children' →
  NoDup children.*1 →
  dir_entries children fs = dir_entries children' fs
  ∧ _write_tree_for_dir (WDir children) fs = _write_tree_for_dir (WDir children') fs.
Proof.
  intros Hp Hnd.
  assert (sorted_by_name (prepare _write_tree_for_dir children)
          = sorted_by_name (prepare _write_tree_for_dir children')) as Hs.
  { apply sorted_by_name_perm; [|by rewrite prepare_names].
    unfold prepare. by apply fmap_Permutation. }
  unfold dir_entries. cbn [_write_tree_for_dir]. by rewrite Hs.
Qed.

Lemma collect_skips_git (cs : list child) (acc : list entry) (fs : objdir) :
  collect cs acc fs = collect (filter (λ c, c.1 ≠ ".git") cs) acc fs.
Proof.
  revert acc fs. induction cs as [|[n [m w]] cs IH]; intros acc fs; [done|].
  rewrite filter_cons. cbn [collect fst]. case_bool_decide as Hgit.
  - rewrite decide_False by (by intros ?). apply IH.
  - rewrite decide_True by done. cbn [collect].
    rewrite bool_decide_eq_false_2 by done.
    destruct (w fs) as [[sha fs1]|]; [|done]. cbn [bind]. apply IH.
Qed.

(** X12. A child named [.git], whatever it holds, has no part in the
    tree: with or without it the entries, the digest and the objects
    written are the same. *)
Theorem git_child_ignored (children : list (str * wnode)) (g : wnode)
    (fs : objdir) :
  NoDup ((".git", g) :: children).*1 →
  dir_entries ((".git", g) :: children) fs = dir_entries children fs
  ∧ _write_tree_for_dir (WDir ((".git", g) :: children)) fs
    = _write_tree_for_dir (WDir children) fs.
Proof.
  intros Hnd.
  set (P := λ c : child, c.1 ≠ ".git").
  set (l := (".git", g) :: children).
  assert (filter P (sorted_by_name (prepare _write_tree_for_dir l))
          = filter P (sorted_by_name (prepare _write_tree_for_dir children))) as Hs.
  { apply sorted_unique.
    - apply StronglySorted_filter, StronglySorted_merge_sort; apply _.
    - apply StronglySorted_filter, StronglySorted_merge_sort; apply _.
    - unfold sorted_by_name. rewrite !merge_sort_Permutation.
      unfold l. cbn [prepare map]. rewrite filter_cons.
      by rewrite decide_False by (by intros ?).
    - eapply sublist_NoDup;
        [|apply fmap_sublist, sublist_filter].
      unfold sorted_by_name. rewrite merge_sort_Permutation.
      by rewrite prepare_names. }
  subst P l. unfold dir_entries. cbn [_write_tree_for_dir].
  rewrite (collect_skips_git (sorted_by_name (prepare _ ((".git", g) :: children)))).
  rewrite (collect_skips_git (sorted_by_name (prepare _ children))).
  split.
  - exact (f_equal (λ cs, collect cs [] fs) Hs).
  - exact (f_equal (λ cs, bind (collect cs [] fs)
                            (λ '(entries, fs0), write_tree_object entries fs0)) Hs).
Qed.
End TreeOrder.

(** ** The scanning loop *)

Lemma find_lower_bound (b : bytes) (c : byte) (start : Z) :
  0 ≤ start → Py.find b c start ≠ -1 → start ≤ Py.find b c start < Py.len b.
Proof.
  intros Hs. unfold Py.find, Py.clamp.
  destruct (Z.ltb_spec start 0) as [?|_]; [lia|].
  destruct (Py.index_of c (drop (Z.to_nat (Z.min start (Py.len b))) b))
    as [k|] eqn:Hk; [|done]. intros _.
  assert (k < length (drop (Z.to_nat (Z.min start (Py.len b))) b))%nat as Hlt.
  { clear -Hk. revert k Hk.
    induction (drop _ b) as [|x l IH]; intros k Hk; [done|]. simpl in *.
    destruct (Byte.eqb x c); [injection Hk as <-; lia|].
    destruct (Py.index_of c l) as [k'|]; [|done]. injection Hk as <-.
    specialize (IH k' eq_refl). lia. }
  rewrite length_drop in Hlt. unfold Py.len in *. lia.
Qed.

(** X13. A turn of the loop that finds its space and its null byte
    moves the index forward by at least 22: the index can only fail to
    advance on a turn where a delimiter is missing. *)
Theorem delimited_turn_advances (body : bytes) (i i' : Z) (e : entry) :
  0 ≤ i →
  Py.find body " " i ≠ -1 →
  Py.find body NUL (Py.find body " " i + 1) ≠ -1 →
  scan_entry body i = Ok (e, i') →
  i + 22 ≤ i'.
Proof.
  intros Hi Hj Hk. unfold scan_entry.
  destruct (find_lower_bound body " " i Hi Hj) as [Hj1 _].
  destruct (find_lower_bound body NUL (Py.find body " " i + 1)) as [Hk1 _];
    [lia | done |].
  destruct (Py.decode _); [|done]. cbn [bind].
  destruct (Py.decode _); [|done]. cbn [bind].
  intros [= _ <-]. lia.
Qed.

(** ** Witnesses *)

Lemma one_entry_digests : Forall (λ e : entry, is_digest e.2 = true) Sample.one_entry.
Proof. by repeat constructor. Qed.

Lemma buckets_ok_flat_only : buckets_ok Sample.flat_only.
Proof.
  intros name data Hl. unfold Sample.flat_only in Hl.
  apply lookup_singleton_Some in Hl as [<- _]. by vm_compute.
Qed.

Lemma ls_tree_after_write_witness :
  ∃ s fs',
    @write_tree_object Framed.zlib Sample.one_entry ∅ = Ok (s, fs')
    ∧ @ls_tree Framed.zlib 1 fs' s true =
        Some (Returned (print (Py.join NL (line true <$> Sample.one_entry)))).
Proof.
  destruct (@write_tree_object_returns Framed.zlib Sample.one_entry
              one_entry_digests ∅ buckets_ok_empty) as (s & fs' & Hw & _).
  exists s, fs'. split; [exact Hw|].
  exact (@ls_tree_after_write Framed.zlib Sample.one_entry ∅ fs' s true 1
           one_entry_ok (λ body _, @slot_agrees_empty Framed.zlib _) Hw (le_n 1)).
Defined.

Lemma entries_describe_children_witness :
  ∃ c, ("b.txt", c) ∈ Sample.tree
       ∧ "b.txt" ≠ ".git"
       ∧ "100644" = _file_mode c
       ∧ match c with
         | WFile _ data =>
             "32f95c0d1244a78b2be1bab8de17906fabb2c4a8" =
               SHA1.hexdigest (object_repr "blob" data)
         | WDir _ =>
             ∃ fs1 fs2,
               @_write_tree_for_dir Framed.zlib c fs1 =
                 Ok ("32f95c0d1244a78b2be1bab8de17906fabb2c4a8", fs2)
         end.
Proof.
  pose proof sample_tree_entries as E.
  destruct (@dir_entries Framed.zlib Sample.tree ∅) as [[entries fs']|] eqn:Hd;
    [|destruct E].
  refine (@entries_describe_children Framed.zlib Sample.tree ∅ fs' entries Hd
            "b.txt" "100644" "32f95c0d1244a78b2be1bab8de17906fabb2c4a8" _).
  rewrite E. apply list_elem_of_further, list_elem_of_here.
Defined.

Lemma tree_digest_state_free_witness :
  ∃ s1 s2 fs1 fs2,
    @_write_tree_for_dir Framed.zlib (WDir Sample.tree) ∅ = Ok (s1, fs1)
    ∧ @_write_tree_for_dir Framed.zlib (WDir Sample.tree) Sample.flat_only = Ok (s2, fs2)
    ∧ s1 = s2.
Proof.
  destruct (@write_tree_for_dir_returns Framed.zlib (WDir Sample.tree) ∅
              buckets_ok_empty) as (s1 & fs1 & H1 & _).
  destruct (@write_tree_for_dir_returns Framed.zlib (WDir Sample.tree)
              Sample.flat_only buckets_ok_flat_only) as (s2 & fs2 & H2 & _).
  exists s1, s2, fs1, fs2. split; [exact H1|]. split; [exact H2|].
  exact (@tree_digest_state_free Framed.zlib _ _ _ _ _ _ _ H1 H2).
Defined.

Lemma plain_tree_names : NoDup More.plain_tree.*1.
Proof. apply (bool_decide_unpack _). by vm_compute. Qed.

Lemma git_tree_names : NoDup ((".git", More.git_child) :: More.plain_tree).*1.
Proof. apply (bool_decide_unpack _). by vm_compute. Qed.

Lemma listing_order_irrelevant_witness :
  @_write_tree_for_dir Framed.zlib (WDir More.plain_tree) ∅ =
  @_write_tree_for_dir Framed.zlib (WDir More.swapped_tree) ∅.
Proof.
  exact (proj2 (@listing_order_irrelevant Framed.zlib More.plain_tree
                  More.swapped_tree ∅ (perm_swap _ _ _) plain_tree_names)).
Defined.

Lemma git_child_ignored_witness :
  @_write_tree_for_dir Framed.zlib
    (WDir ((".git", More.git_child) :: More.plain_tree)) ∅ =
  @_write_tree_for_dir Framed.zlib (WDir More.plain_tree) ∅.
Proof.
  exact (proj2 (@git_child_ignored Framed.zlib More.plain_tree More.git_child ∅
                  git_tree_names)).
Defined.

Lemma delimited_turn_advances_witness : 0 + 22 ≤ 29.
Proof.
  refine (delimited_turn_advances More.one_entry_body 0 29
            ("a", "100644", "7878787878787878787878787878787878787878")
            _ _ _ _).
  - lia.
  - vm_compute. discriminate.
  - vm_compute. discriminate.
  - vm_compute. reflexivity.
Defined.

(** ** Command line *)

Lemma main_commit_tree_word (prog cmd : str) (rest : list str)
    (t : str) (p : option str) (m : str) :
  main (prog :: cmd :: rest) = CommitTree t p m → cmd = "commit-tree".
Proof.
  destruct (String.eqb_spec cmd "commit-tree") as [|Hne]; [done|].
  apply String.eqb_neq in Hne. unfold main.
  cbn [length Nat.ltb Nat.leb nth]. rewrite Hne.
  repeat case_match; discriminate.
Qed.

Lemma parse_commit_tree_inv (t : str) (rest : list str) (parent : option str)
    (t' : str) (p : option str) (m : str) :
  parse_commit_tree t rest parent = CommitTree t' p m →
  t' = t
  ∧ ∃ words, m = Py.join " " words
      ∧ ((p = parent ∧ rest = "-m" :: words)
         ∨ ∃ v, parent = None ∧ p = Some v ∧ rest = "-p" :: v :: "-m" :: words).
Proof.
  destruct rest as [|a rest]; [done|]. cbn [parse_commit_tree].
  destruct (String.eqb_spec a "-p") as [->|_].
  - destruct parent as [|]; [done|]. destruct rest as [|v rest]; [done|].
    destruct rest as [|b rest]; [done|]. cbn [parse_commit_tree].
    destruct (String.eqb_spec b "-p") as [->|_]; [done|].
    destruct (String.eqb_spec b "-m") as [->|_]; [|done].
    intros [= <- <- <-]. split; [done|]. exists rest. split; [done|].
    right. by exists v.
  - destruct (String.eqb_spec a "-m") as [->|_]; [|done].
    intros [= <- <- <-]. split; [done|]. exists rest. split; [done|]. by left.
Qed.

(** X14. [main] calls [commit_tree] for exactly two shapes of command
    line: [commit-tree T -m words...] and [commit-tree T -p P -m words...].
    The message is all the words after the first [-m] joined by single
    spaces (so a later [-p] is part of the message, and no word at all
    gives the empty message); a second [-p], a [-p] without value, any
    other word before [-m] and a missing [-m] all end in [usage]. *)
Theorem commit_tree_command_line (argv : list str) (tree_sha : str)
    (parent_sha : option str) (message : str) :
  main argv = CommitTree tree_sha parent_sha message ↔
  ∃ prog words,
    message = Py.join " " words
    ∧ ((parent_sha = None
        ∧ argv = prog :: "commit-tree" :: tree_sha :: "-m" :: words)
       ∨ ∃ p, parent_sha = Some p
              ∧ argv = prog :: "commit-tree" :: tree_sha :: "-p" :: p :: "-m" :: words).
Proof.
  split.
  - intros Hm. destruct argv as [|prog [|cmd rest]]; [done..|].
    pose proof (main_commit_tree_word _ _ _ _ _ _ Hm) as ->.
    destruct rest as [|t [|a rest]]; [done..|].
    change (main (prog :: "commit-tree" :: t :: a :: rest))
      with (parse_commit_tree t (a :: rest) None) in Hm.
    apply parse_commit_tree_inv in Hm
      as (-> & words & -> & [[-> ->]|(v & _ & -> & ->)]).
    + exists prog, words. split; [done|]. by left.
    + exists prog, words. split; [done|]. right. by exists v.
  - intros (prog & words & -> & [[-> ->]|(p & -> & ->)]); reflexivity.
Qed.

Lemma parse_commit_tree_cases (t : str) (rest : list str) (parent : option str) :
  parse_commit_tree t rest parent = Usage
  ∨ ∃ p m, parse_commit_tree t rest parent = CommitTree t p m.
Proof.
  destruct rest as [|a rest]; [by left|]. cbn [parse_commit_tree].
  destruct (String.eqb a "-p").
  - destruct parent; [by left|]. destruct rest as [|v rest]; [by left|].
    destruct rest as [|b rest]; [by left|]. cbn [parse_commit_tree].
    destruct (String.eqb b "-p"); [by left|].
    destruct (String.eqb b "-m"); [right; eauto | by left].
  - destruct (String.eqb a "-m"); [right; eauto | by left].
Qed.

Lemma main_ls_tree_word (prog cmd : str) (rest : list str) (sha : str) (b : bool) :
  main (prog :: cmd :: rest) = LsTree sha b → cmd = "ls-tree".
Proof.
  destruct (String.eqb_spec cmd "ls-tree") as [|Hne]; [done|].
  apply String.eqb_neq in Hne. unfold main.
  cbn [length Nat.ltb Nat.leb nth]. rewrite Hne.
  repeat case_match; try discriminate.
  all: match goal with
       | |- parse_commit_tree ?t ?r ?p = _ → _ =>
           destruct (parse_commit_tree_cases t r p) as [->|(? & ? & ->)];
           discriminate
       end.
Qed.

(** X15. [main] calls [ls_tree] with [name_only] set exactly when
    [--name-only] is followed by another argument, which is then the
    digest; in every other case with at least one argument the first
    argument is the digest, [--name-only] itself included when nothing
    follows it. *)
Theorem ls_tree_command_line (argv : list str) (tree_sha : str) :
  (main argv = LsTree tree_sha true ↔
     ∃ prog rest, argv = prog :: "ls-tree" :: "--name-only" :: tree_sha :: rest)
  ∧ (main argv = LsTree tree_sha false ↔
       ∃ prog rest,
         argv = prog :: "ls-tree" :: tree_sha :: rest
         ∧ (rest = [] ∨ tree_sha ≠ "--name-only")).
Proof.
  assert (∀ prog x y rest,
            main (prog :: "ls-tree" :: x :: y :: rest) =
              if String.eqb x "--name-only" then LsTree y true else LsTree x false)
    as Hlong by reflexivity.
  split; split.
  - intros Hm. destruct argv as [|prog [|cmd rest]]; [done..|].
    pose proof (main_ls_tree_word _ _ _ _ _ Hm) as ->.
    destruct rest as [|x [|y rest]]; [done..|]. rewrite Hlong in Hm.
    destruct (String.eqb_spec x "--name-only") as [->|_]; [|done].
    injection Hm as <-. eauto.
  - intros (prog & rest & ->). reflexivity.
  - intros Hm. destruct argv as [|prog [|cmd rest]]; [done..|].
    pose proof (main_ls_tree_word _ _ _ _ _ Hm) as ->.
    destruct rest as [|x [|y rest]]; [done| |].
    + injection Hm as <-. exists prog, []. eauto.
    + rewrite Hlong in Hm.
      destruct (String.eqb_spec x "--name-only") as [->|Hne]; [done|].
      injection Hm as <-. exists prog, (y :: rest). eauto.
  - intros (prog & rest & -> & [->|Hne]); [reflexivity|].
    destruct rest as [|y rest]; [reflexivity|]. rewrite Hlong.
    apply String.eqb_neq in Hne. by rewrite Hne.
Qed.

(** ** Running [write-tree] again *)

Section Rerun.
Context `{Zlib}.

Lemma extends_trans (a b c : objdir) : extends a b → extends b c → extends a c.
Proof. intros Hab Hbc p Hp. by apply Hbc, Hab. Qed.

Lemma write_object_settles (store : bytes) : settles (_write_object store).
Proof.
  intros fs s fs1 Hw. destruct (write_object_inv _ _ _ _ Hw) as [Hs He]. split.
  - intros p Hp.
    destruct (decide (p = Nested (Py.str_take 2 s) (Py.str_drop 2 s))) as [->|Hp1];
      [done|].
    destruct (decide (p = Top (Py.str_take 2 s))) as [->|Hp2].
    + simpl in He |- *. destruct (fs1 !! Py.str_take 2 s); [|done].
      by apply bool_decide_eq_true_2.
    + destruct (write_object_frame _ _ _ _ p Hw Hp1 Hp2) as [-> _]. done.
  - intros fs2 Hext. subst s. apply write_object_skip. by apply Hext.
Qed.

Lemma collect_settles (cs : list child) (acc entries : list entry)
    (fs fs1 : objdir) :
  Forall (λ c, settles c.2.2) cs →
  collect cs acc fs = Ok (entries, fs1) →
  extends fs fs1
  ∧ ∀ fs2, extends fs1 fs2 → collect cs acc fs2 = Ok (entries, fs2).
Proof.
  intros Hcs. revert acc fs.
  induction Hcs as [|[n [m w]] cs Hw _ IH]; intros acc fs Hc.
  - injection Hc as <- <-. split; [by intros p Hp | by intros fs2 _].
  - cbn [collect] in Hc |- *. case_bool_decide; [by apply IH|].
    destruct (w fs) as [[sha fsa]|] eqn:Ew; [|done]. cbn [bind] in Hc.
    destruct (Hw _ _ _ Ew) as [Hext Hagain].
    destruct (IH _ _ Hc) as [Hext' Hrest]. split.
    + by eapply extends_trans.
    + intros fs2 H2. cbn [snd] in Hagain.
      rewrite (Hagain fs2) by (by eapply extends_trans). cbn [bind].
      by apply Hrest.
Qed.

Lemma writer_settles (c : wnode) : settles (writer c).
Proof.
  induction c as [st_mode data|children IH] using wnode_induction.
  - apply write_object_settles.
  - intros fs s fs1. cbn [writer _write_tree_for_dir].
    destruct (collect _ [] fs) as [[entries fsa]|] eqn:Ec; [|done].
    cbn [bind]. intros Hw.
    assert (Forall (λ c : child, settles c.2.2)
              (sorted_by_name (prepare _write_tree_for_dir children))) as Hcs.
    { eapply Permutation_Forall; [symmetry; apply merge_sort_Permutation|].
      unfold prepare. apply Forall_fmap.
      eapply Forall_impl; [apply IH|]. by intros [name c]. }
    destruct (collect_settles _ _ _ _ _ Hcs Ec) as [Hext Hagain].
    unfold write_tree_object in Hw |- *.
    destruct (encode_tree entries) as [body|] eqn:Eb; [|done]. cbn [bind] in Hw.
    destruct (write_object_settles _ _ _ _ Hw) as [Hext' Hskip]. split.
    + by eapply extends_trans.
    + intros fs2 H2.
      rewrite (Hagain fs2) by (by eapply extends_trans). cbn [bind].
      rewrite Eb. cbn [bind]. by apply Hskip.
Qed.

(** X16. [write-tree] writes every object once: it only ever adds
    paths to the object directory, and run a second time on the same
    directory it returns the same digest and changes nothing. *)
Theorem write_tree_twice (dir_path : wnode) (fs fs' : objdir) (s : str) :
  _write_tree_for_dir dir_path fs = Ok (s, fs') →
  extends fs fs'
  ∧ _write_tree_for_dir dir_path fs' = Ok (s, fs')
  ∧ write_tree dir_path fs' = Ok (print s, fs').
Proof.
  destruct dir_path as [st_mode data|children]; [done|]. intros Hw.
  destruct (writer_settles (WDir children) _ _ _ Hw) as [Hext Hagain].
  split; [done|].
  assert (_write_tree_for_dir (WDir children) fs' = Ok (s, fs')) as Hw'
    by (apply Hagain; by intros p Hp).
  split; [done|]. unfold write_tree. by rewrite Hw'.
Qed.
End Rerun.

Lemma write_tree_twice_witness :
  ∃ s fs',
    @_write_tree_for_dir Framed.zlib (WDir Sample.tree) ∅ = Ok (s, fs')
    ∧ @_write_tree_for_dir Framed.zlib (WDir Sample.tree) fs' = Ok (s, fs').
Proof.
  destruct (@write_tree_for_dir_returns Framed.zlib (WDir Sample.tree) ∅
              buckets_ok_empty) as (s & fs' & Hw & _).
  exists s, fs'. split; [exact Hw|].
  exact (proj1 (proj2 (@write_tree_twice Framed.zlib _ _ _ _ Hw))).
Defined.

(** ** From a directory to its listing *)

Lemma sorted_names {A} (l : list (str * A)) :
  (sorted_by_name l).*1 = merge_sort String.le l.*1.
Proof.
  destruct (sorted_by_name_names l) as [Hs Hp].
  apply (StronglySorted_unique String.le); [done| |].
  - apply StronglySorted_merge_sort; apply _.
  - by rewrite Hp, merge_sort_Permutation.
Qed.

Lemma file_mode_ok (c : wnode) : mode_ok (_file_mode c).
Proof.
  destruct c as [st_mode data|children]; simpl; [|by left].
  destruct (Z.land st_mode 73 =? 0); simpl; right; [by right | by left].
Qed.

Lemma line_names (entries : list entry) : line true <$> entries = names entries.
Proof. unfold names. apply list_fmap_ext. by intros i [[name mode] sha] _. Qed.

Section Listing.
Context `{Zlib}.

Lemma collect_names (cs : list child) (acc entries : list entry) (fs fs' : objdir) :
  collect cs acc fs = Ok (entries, fs') →
  names entries = names acc ++ filter (λ n, n ≠ ".git") cs.*1.
Proof.
  revert acc fs. induction cs as [|[n [m w]] cs IH]; intros acc fs Hc.
  - injection Hc as <- _. by rewrite app_nil_r.
  - cbn [collect fmap list_fmap fst] in *. rewrite filter_cons.
    case_bool_decide as Hgit.
    + rewrite decide_False by (by intros ?). by eapply IH.
    + rewrite decide_True by done.
      destruct (w fs) as [[sha fs1]|]; [|done]. cbn [bind] in Hc.
      rewrite (IH _ _ Hc). unfold names. by rewrite fmap_app, <-app_assoc.
Qed.

Lemma writer_digest (c : wnode) (fs fs' : objdir) (s : str) :
  writer c fs = Ok (s, fs') → is_digest s = true.
Proof.
  destruct c as [st_mode data|children]; cbn [writer _write_tree_for_dir].
  - intros [-> _]%write_object_inv. apply hexdigest_is_digest.
  - destruct (collect _ [] fs) as [[entries fs1]|]; [|done]. cbn [bind].
    rewrite write_tree_object_repr.
    destruct (encode_tree entries); [|done]. cbn [bind].
    intros [-> _]%write_object_inv. apply hexdigest_is_digest.
Qed.

(** The entries of a directory whose children have proper names are well
    formed: such a name, a mode of [_file_mode], a digest. *)
Lemma dir_entries_ok (children : list (str * wnode)) (fs fs' : objdir)
    (entries : list entry) :
  Forall (λ c, name_ok c.1) children →
  dir_entries children fs = Ok (entries, fs') →
  Forall entry_ok entries.
Proof.
  intros Hnames Hd. apply Forall_forall. intros [[name mode] sha] He.
  unfold dir_entries in Hd.
  destruct (collect_elem _ _ _ _ _ Hd _ _ _ He)
    as [Hin|(write & fs1 & fs2 & Hin & _ & Hw)]; [by apply elem_of_nil in Hin|].
  unfold sorted_by_name in Hin. rewrite merge_sort_Permutation in Hin.
  unfold prepare in Hin. apply list_elem_of_fmap in Hin as ([n c] & Heq & Hc).
  injection Heq as -> -> ->. split; [|split]; cbn [fst snd].
  - by apply (proj1 (Forall_forall _ _) Hnames (n, c)).
  - apply file_mode_ok.
  - by apply (writer_digest c fs1 fs2).
Qed.

(** X17. [write-tree] followed by [ls-tree --name-only] on the digest
    it returned lists the names of the directory's children in the order
    of [sorted], without [.git], one per line.  The names must be text
    without null byte, and the tree object must find its fan-out location
    free or agreeing when it is written. *)
Theorem write_tree_then_list (children : list (str * wnode)) (fs fs' : objdir)
    (s : str) (fuel : nat) :
  Forall (λ c, name_ok c.1) children →
  (∀ entries fs1 body,
     dir_entries children fs = Ok (entries, fs1) →
     encode_tree entries = Ok body →
     slot_agrees fs1 (object_repr "tree" body)) →
  _write_tree_for_dir (WDir children) fs = Ok (s, fs') →
  (length children ≤ fuel)%nat →
  ls_tree fuel fs' s true =
    Some (Returned (print (Py.join NL
            (filter (λ n, n ≠ ".git") (merge_sort String.le children.*1))))).
Proof.
  intros Hnames Hslot Hw Hfuel. cbn [_write_tree_for_dir] in Hw.
  fold (dir_entries children fs) in Hw.
  destruct (dir_entries children fs) as [[entries fs1]|] eqn:Hd; [|done].
  cbn [bind] in Hw.
  assert (names entries
          = filter (λ n, n ≠ ".git") (merge_sort String.le children.*1)) as Hn.
  { unfold dir_entries in Hd. rewrite (collect_names _ _ _ _ _ Hd).
    cbn [names fmap list_fmap app]. by rewrite sorted_names, prepare_names. }
  assert (Forall entry_ok entries) as Hok by (by eapply dir_entries_ok).
  rewrite <-Hn, <-line_names.
  destruct (scan_entries entries Hok) as (body & Hbody & Hscan).
  destruct (Hscan [] []) as [Hfull _].
  apply (ls_tree_of_body entries entries body fs1); [done | by eauto | done |].
  apply (scan_more_fuel (length entries)); [done|].
  etrans; [|exact Hfuel].
  assert (length entries = length (names entries)) as -> by (unfold names; by rewrite length_fmap).
  rewrite Hn. etrans; [apply length_filter|].
  rewrite <-(length_fmap fst children).
  by rewrite merge_sort_Permutation.
Qed.
End Listing.

Lemma plain_tree_slot (entries : list entry) (fs1 : objdir) (body : bytes) :
  @dir_entries Framed.zlib More.plain_tree ∅ = Ok (entries, fs1) →
  encode_tree entries = Ok body →
  @slot_agrees Framed.zlib fs1 (object_repr "tree" body).
Proof.
  intros Hd Hb. vm_compute in Hd. injection Hd as <- <-.
  vm_compute in Hb. injection Hb as <-. vm_compute. exact I.
Qed.

Lemma write_tree_then_list_witness :
  ∃ s fs',
    @_write_tree_for_dir Framed.zlib (WDir More.plain_tree) ∅ = Ok (s, fs')
    ∧ @ls_tree Framed.zlib 2 fs' s true =
        Some (Returned (print (Py.join NL
                (filter (λ n, n ≠ ".git")
                   (merge_sort String.le More.plain_tree.*1))))).
Proof.
  destruct (@write_tree_for_dir_returns Framed.zlib (WDir More.plain_tree) ∅
              buckets_ok_empty) as (s & fs' & Hw & _).
  exists s, fs'. split; [exact Hw|].
  refine (@write_tree_then_list Framed.zlib More.plain_tree ∅ fs' s 2
            _ plain_tree_slot Hw (le_n 2)).
  repeat constructor.
Defined.

Example plain_tree_listing :
  print (Py.join NL (filter (λ n, n ≠ ".git")
                       (merge_sort String.le More.plain_tree.*1)))
  = Py.B "a" ++ Py.encode NL ++ Py.B "b.txt" ++ Py.encode NL.
Proof. by vm_compute. Qed.

(** ** The tree object of a directory *)

Lemma names_ok_children (children : list (str * wnode)) :
  names_ok (WDir children) → Forall (λ c, name_ok c.1) children.
Proof.
  cbn [names_ok]. induction children as [|[name c] children IH]; [constructor|].
  cbn [fold_right]. intros (Hn & _ & Hrest). constructor; [done | by apply IH].
Qed.

Section TreeOfDirectory.
Context `{Zlib}.

(** C7. Whenever [_write_tree_for_dir] returns on a directory whose names
    are text, the object it wrote, under the digest it returned, is the
    tree object of an entry list that the loop of [ls_tree] reads back
    from the body entry by entry, and this list holds the direct children
    of the directory and nothing else: each entry carries the name and the
    mode of a child, the names are those of the children without [.git],
    each once, and they are in byte-wise order. *)
Theorem tree_entries_sorted (children : list (str * wnode)) (fs fs' : objdir)
    (s : str) :
  names_ok (WDir children) →
  _write_tree_for_dir (WDir children) fs = Ok (s, fs') →
  ∃ entries fs1 body,
    dir_entries children fs = Ok (entries, fs1)
    ∧ encode_tree entries = Ok body
    ∧ _write_object (object_repr "tree" body) fs1 = Ok (s, fs')
    ∧ s = SHA1.hexdigest (object_repr "tree" body)
    ∧ (slot_agrees fs1 (object_repr "tree" body) →
       _read_object fs' s = Ok (object_repr "tree" body))
    ∧ scan (length entries) body 0 [] = Some (Ok entries)
    ∧ StronglySorted String.le (names entries)
    ∧ (names entries ≡ₚ filter (λ n, n ≠ ".git") (children.*1))
    ∧ ".git" ∉ names entries
    ∧ ∀ name mode sha, (name, mode, sha) ∈ entries →
        ∃ c, (name, c) ∈ children ∧ mode = _file_mode c.
Proof.
  intros Hnames%names_ok_children Hw. cbn [_write_tree_for_dir] in Hw.
  fold (dir_entries children fs) in Hw.
  destruct (dir_entries children fs) as [[entries fs1]|] eqn:Hd; [|done].
  cbn [bind] in Hw.
  assert (Forall entry_ok entries) as Hok by (by eapply dir_entries_ok).
  destruct (scan_entries entries Hok) as (body & Hbody & Hscan).
  rewrite write_tree_object_repr, Hbody in Hw. cbn [bind] in Hw.
  destruct (sorted_by_name_names (prepare _write_tree_for_dir children))
    as [Hsorted Hperm].
  assert (names entries
          = filter (λ n, n ≠ ".git")
              (sorted_by_name (prepare _write_tree_for_dir children)).*1) as Hn.
  { unfold dir_entries in Hd. by rewrite (collect_names _ _ _ _ _ Hd). }
  exists entries, fs1, body.
  split; [done|]. split; [done|]. split; [done|].
  split; [by destruct (write_object_inv _ _ _ _ Hw)|].
  split; [intros Hslot; by apply (read_after_write _ fs1)|].
  split; [exact (proj1 (Hscan [] []))|].
  rewrite Hn.
  split; [by apply StronglySorted_filter|].
  split; [by rewrite Hperm, prepare_names|].
  split; [rewrite list_elem_of_filter; by intros [? _]|].
  intros name mode sha He. unfold dir_entries in Hd.
  destruct (collect_elem _ _ _ _ _ Hd _ _ _ He)
    as [Hin|(write & fs2 & fs3 & Hin & _ & _)]; [by apply elem_of_nil in Hin|].
  unfold sorted_by_name in Hin. rewrite merge_sort_Permutation in Hin.
  unfold prepare in Hin. apply list_elem_of_fmap in Hin as ([n c] & Heq & Hc).
  injection Heq as -> -> _. by exists c.
Qed.
End TreeOfDirectory.

Lemma sample_tree_names : names_ok (WDir Sample.tree).
Proof. cbn [names_ok Sample.tree fold_right]. unfold name_ok. by vm_compute. Qed.

Lemma tree_entries_sorted_witness :
  ∃ s fs',
    @_write_tree_for_dir Framed.zlib (WDir Sample.tree) ∅ = Ok (s, fs')
    ∧ ∃ entries fs1 body,
        @dir_entries Framed.zlib Sample.tree ∅ = Ok (entries, fs1)
        ∧ encode_tree entries = Ok body
        ∧ @_write_object Framed.zlib (object_repr "tree" body) fs1 = Ok (s, fs')
        ∧ s = SHA1.hexdigest (object_repr "tree" body)
        ∧ (@slot_agrees Framed.zlib fs1 (object_repr "tree" body) →
           @_read_object Framed.zlib fs' s = Ok (object_repr "tree" body))
        ∧ scan (length entries) body 0 [] = Some (Ok entries)
        ∧ StronglySorted String.le (names entries)
        ∧ (names entries ≡ₚ filter (λ n, n ≠ ".git") (Sample.tree.*1))
        ∧ ".git" ∉ names entries
        ∧ ∀ name mode sha, (name, mode, sha) ∈ entries →
            ∃ c, (name, c) ∈ Sample.tree ∧ mode = _file_mode c.
Proof.
  destruct (@write_tree_for_dir_returns Framed.zlib (WDir Sample.tree) ∅
              buckets_ok_empty) as (s & fs' & Hw & _).
  exists s, fs'. split; [exact Hw|].
  exact (@tree_entries_sorted Framed.zlib Sample.tree ∅ fs' s sample_tree_names Hw).
Defined.
